(** * PaperBot: the arXiv search builder and the daily-fetch loop

    A shallow embedding of [arxiv.py]: the two token classifiers
    ([_is_category], [_is_paper_id]), the [Search] request builder with
    its helper constructors and [Finalize], and the batched loop of
    [ArxivParser._query_daily_paper].

    Python strings are modelled by [string] (code points below 256),
    Python integers by [Z], raised exceptions by the [Raise] constructor
    of [result], and the effects of the loop (feed requests, console
    output, rate-limit pauses) by an explicit event trace. *)

From Stdlib Require Import ZArith List Bool Ascii String Lia.
From Stdlib Require Import Numbers.DecimalString.
From Equations.Prop Require Import Equations Logic.
Import ListNotations.

Open Scope string_scope.
Open Scope Z_scope.

(* ===================================================================== *)
(** ** Exceptions *)

(** The text of a [RuntimeError] is kept structured: which message, and
    the value that is formatted into it. *)
Inductive runtime_msg : Type :=
| Unrecognized_list_input (search : list string)
| Unknown_sorting_type (sort_by : string)
| Unknown_ordering (sort_order : string).

Inductive exn : Type :=
| RuntimeError (msg : runtime_msg)
| OverflowError.

Inductive result (A : Type) : Type :=
| Ok (a : A)
| Raise (e : exn).

Arguments Ok {A} a.
Arguments Raise {A} e.

Definition bind {A B : Type} (m : result A) (f : A -> result B) : result B :=
  match m with
  | Ok a => f a
  | Raise e => Raise e
  end.

Notation "x <- m ;; k" := (bind m (fun x => k))
  (at level 100, m at next level, right associativity).

(* ===================================================================== *)
(** ** Strings *)

(** [str(n)] for a Python integer. *)
Definition str_of_int (n : Z) : string :=
  NilZero.string_of_int (Z.to_int n).

(** [needle in hay] for two Python strings: substring containment. *)
Fixpoint str_in (needle hay : string) : bool :=
  String.prefix needle hay ||
  match hay with
  | EmptyString => false
  | String _ rest => str_in needle rest
  end.

(** [s.split(sep)] for a one-character separator: every occurrence of
    the separator cuts, so two separators in a row give an empty piece. *)
Fixpoint split (sep : ascii) (s : string) : list string :=
  match s with
  | EmptyString => [EmptyString]
  | String c rest =>
      if Ascii.eqb c sep then EmptyString :: split sep rest
      else match split sep rest with
           | piece :: pieces => String c piece :: pieces
           | [] => [String c EmptyString]
           end
  end.

(** [sep.join(pieces)]. *)
Definition join (sep : string) (pieces : list string) : string :=
  String.concat sep pieces.

(* ===================================================================== *)
(** ** A backtracking matcher for the patterns of [re.search] *)

Module Re.

(** One-character matchers. *)
Definition in_range (lo hi c : ascii) : bool :=
  (nat_of_ascii lo <=? nat_of_ascii c)%nat &&
  (nat_of_ascii c <=? nat_of_ascii hi)%nat.

(** [[a-zA-Z.-]] *)
Definition cat_char (c : ascii) : bool :=
  in_range "a" "z" c || in_range "A" "Z" c ||
  Ascii.eqb c "." || Ascii.eqb c "-".

(** [\.] *)
Definition dot (c : ascii) : bool := Ascii.eqb c ".".

(** [\d] *)
Definition digit (c : ascii) : bool := in_range "0" "9" c.

Inductive item : Type :=
| Bol                              (* ^  *)
| One (a : ascii -> bool)          (* a  *)
| Opt (a : ascii -> bool)          (* a? *)
| Plus (a : ascii -> bool).        (* a+ *)

Definition pattern := list item.

Definition cons_match (c : ascii) (m : option string) : option string :=
  match m with
  | Some txt => Some (String c txt)
  | None => None
  end.

(** [match_here p bos s]: the text matched by [p] at the head of [s],
    [bos] telling whether that is the beginning of the subject.  The
    quantifiers are greedy and backtrack: [a+] first tries to take one
    more character and only then hands over to the rest of the
    pattern; [a?] first tries with the character and then without. *)
Fixpoint match_here (p : pattern) : bool -> string -> option string :=
  match p with
  | [] => fun _ _ => Some EmptyString
  | Bol :: r => fun bos s => if bos then match_here r bos s else None
  | One a :: r => fun _ s =>
      match s with
      | String c t => if a c then cons_match c (match_here r false t) else None
      | EmptyString => None
      end
  | Opt a :: r => fun bos s =>
      let taken :=
        match s with
        | String c t => if a c then cons_match c (match_here r false t) else None
        | EmptyString => None
        end in
      match taken with
      | Some txt => Some txt
      | None => match_here r bos s
      end
  | Plus a :: r => fun _ =>
      fix plus (s : string) : option string :=
        match s with
        | String c t =>
            if a c then
              match plus t with
              | Some txt => Some (String c txt)
              | None => cons_match c (match_here r false t)
              end
            else None
        | EmptyString => None
        end
  end.

(** [re.search]: the first position, from the left, where the pattern
    matches; the result is the matched text ([res.group()]). *)
Fixpoint search_from (p : pattern) (bos : bool) (s : string) : option string :=
  match match_here p bos s with
  | Some txt => Some txt
  | None =>
      match s with
      | EmptyString => None
      | String _ t => search_from p false t
      end
  end.

Definition search (p : pattern) (s : string) : option string :=
  search_from p true s.

End Re.

(** [r"^[a-zA-Z.-]+\.?[a-zA-Z.-]+"] *)
Definition category_pattern : Re.pattern :=
  [Re.Bol; Re.Plus Re.cat_char; Re.Opt Re.dot; Re.Plus Re.cat_char].

(** [r"\d+\.\d+"] *)
Definition paper_id_pattern : Re.pattern :=
  [Re.Plus Re.digit; Re.One Re.dot; Re.Plus Re.digit].

Definition _is_category (entry : string) : bool :=
  match Re.search category_pattern entry with
  | Some txt => (4 <? String.length txt)%nat
  | None => false
  end.

Definition _is_paper_id (entry : string) : bool :=
  match Re.search paper_id_pattern entry with
  | Some _ => true
  | None => false
  end.

(* ===================================================================== *)
(** ** [class Search] *)

(** The argument of the constructor: a list of strings or one string. *)
Inductive search_input : Type :=
| AList (tokens : list string)
| AStr (token : string).

Record Search : Type := mkSearch {
  search_query : string;
  id_list : string
}.

Definition Search_init (search : search_input) : result Search :=
  match search with
  | AList tokens =>
      if forallb _is_category tokens then
        Ok (mkSearch (join "+OR+" (map (fun c => "cat:" ++ c) tokens)) "")
      else if forallb _is_paper_id tokens then
        Ok (mkSearch "" (join "," tokens))
      else Raise (RuntimeError (Unrecognized_list_input tokens))
  | AStr token =>
      if _is_category token then Ok (mkSearch ("cat:" ++ token) "")
      else if _is_paper_id token then Ok (mkSearch "" token)
      else Ok (mkSearch token "")
  end.

Definition FromSubject (subject : string) : result Search :=
  let search := join "+AND+" (map (fun p => "all:" ++ p) (split " " subject)) in
  Search_init (AStr search).

Definition FromPaper (title : string) (author : option string) : result Search :=
  let search := "ti:" ++ title in
  let search :=
    match author with
    | Some a => search ++ "+AND+au:" ++ a
    | None => search
    end in
  Search_init (AStr search).

Definition _base_url : string := "http://export.arxiv.org/api/query?".

Definition sort_by_values : list string :=
  ["relevance"; "lastUpdatedDate"; "submittedDate"].

Definition sort_order_values : list string := ["ascending"; "descending"].

Definition str_mem (s : string) (l : list string) : bool :=
  existsb (String.eqb s) l.

Definition Finalize (self : Search) (start max_results : Z)
    (sort_by sort_order : string) : result string :=
  if negb (str_mem sort_by sort_by_values) then
    Raise (RuntimeError (Unknown_sorting_type sort_by))
  else if negb (str_mem sort_order sort_order_values) then
    Raise (RuntimeError (Unknown_ordering sort_order))
  else
    let srch :=
      "search_query=" ++ search_query self ++ "&" ++
      "id_list=" ++ id_list self ++ "&" ++
      "start=" ++ str_of_int start ++ "&" ++
      "max_results=" ++ str_of_int max_results ++ "&" ++
      "sortBy=" ++ sort_by ++ "&" ++
      "sortOrder=" ++ sort_order in
    Ok (_base_url ++ srch).

(** The defaults of [Finalize]'s keyword arguments. *)
Definition default_sort_by : string := "submittedDate".
Definition default_sort_order : string := "descending".

(* ===================================================================== *)
(** ** [datetime.date], as far as the daily fetch uses it *)

Module Date.

(** A date is its proleptic Gregorian ordinal: 0001-01-01 is day 1. *)
Record t : Type := mk { toordinal : Z }.

Definition _MAXORDINAL : Z := 3652059.   (* 9999-12-31 *)

Definition valid (d : t) : Prop := 1 <= toordinal d <= _MAXORDINAL.

(** Monday is 0, Sunday is 6. *)
Definition weekday (d : t) : Z := (toordinal d + 6) mod 7.

(** [d - timedelta(days)]; the result must stay within the range of
    the type. *)
Definition sub_days (d : t) (days : Z) : result t :=
  let o := toordinal d - days in
  if (0 <? o) && (o <=? _MAXORDINAL) then Ok (mk o) else Raise OverflowError.

Definition _DAYS_IN_MONTH : list Z :=
  [-1; 31; 28; 31; 30; 31; 30; 31; 31; 30; 31; 30; 31].

Definition _DAYS_BEFORE_MONTH : list Z :=
  [-1; 0; 31; 59; 90; 120; 151; 181; 212; 243; 273; 304; 334].

Definition _DI400Y : Z := 146097.
Definition _DI100Y : Z := 36524.
Definition _DI4Y : Z := 1461.

Definition b2z (b : bool) : Z := if b then 1 else 0.

(** Ordinal to (year, month, day). *)
Definition _ord2ymd (n : Z) : Z * Z * Z :=
  let n := n - 1 in
  let n400 := n / _DI400Y in
  let n := n mod _DI400Y in
  let year := n400 * 400 + 1 in
  let n100 := n / _DI100Y in
  let n := n mod _DI100Y in
  let n4 := n / _DI4Y in
  let n := n mod _DI4Y in
  let n1 := n / 365 in
  let n := n mod 365 in
  let year := year + n100 * 100 + n4 * 4 + n1 in
  if (n1 =? 4) || (n100 =? 4) then (year - 1, 12, 31)
  else
    let leapyear := (n1 =? 3) && (negb (n4 =? 24) || (n100 =? 3)) in
    let month := Z.shiftr (n + 50) 5 in
    let preceding :=
      nth (Z.to_nat month) _DAYS_BEFORE_MONTH 0 + b2z ((2 <? month) && leapyear) in
    if n <? preceding then
      let month := month - 1 in
      let preceding :=
        preceding - (nth (Z.to_nat month) _DAYS_IN_MONTH 0 + b2z ((month =? 2) && leapyear)) in
      (year, month, n - preceding + 1)
    else (year, month, n - preceding + 1).

(** Decimal with leading zeros up to [width] digits. *)
Definition zero_pad (width : nat) (n : Z) : string :=
  let digits := str_of_int n in
  String.concat "" (repeat "0" (width - String.length digits)) ++ digits.

(** [d.strftime('%Y-%m-%d')] *)
Definition strftime_ymd (d : t) : string :=
  let '(y, m, dd) := _ord2ymd (toordinal d) in
  zero_pad 4 y ++ "-" ++ zero_pad 2 m ++ "-" ++ zero_pad 2 dd.

End Date.

(** Lines 223-227: the submission date the daily fetch looks for. *)
Definition target_date (today : Date.t) : result Date.t :=
  if Date.weekday today =? 0 then Date.sub_days today 3
  else Date.sub_days today 1.

(* ===================================================================== *)
(** ** The feed *)

(** One entry of a parsed feed; a field is [None] when the entry has
    no such key.  [entry_authors] is the list of the authors, each with
    its ['name'], or [None] for an author without that key. *)
Record FeedEntry : Type := mkEntry {
  entry_date : option string;
  entry_title : option string;
  entry_authors : option (list (option string));
  entry_summary : option string;
  entry_link : option string
}.

(** What [feedparser.parse] returns; [status] is [None] when the result
    has no ['status'] key. *)
Record FeedResult : Type := mkFeed {
  status : option Z;
  entries : list FeedEntry
}.

(** What the daily fetch does to the outside, in order. *)
Inductive event : Type :=
| EFetch (url : string)       (* parse(search) *)
| EPrint (line : string)      (* print(...) *)
| ESleep.                     (* sleep(self.wait_time + uniform(0, 3)) *)

(** [entry.get('date', '')] *)
Definition get_date (e : FeedEntry) : string :=
  match entry_date e with
  | Some d => d
  | None => ""
  end.

(** [res.get('status') != 200] *)
Definition status_not_200 (res : FeedResult) : bool :=
  match status res with
  | Some code => negb (code =? 200)
  | None => true
  end.

(** ['HTTP Error {} in query'.format(res.get('status', 'no status'))] *)
Definition http_error_line (res : FeedResult) : string :=
  "HTTP Error " ++
  match status res with
  | Some code => str_of_int code
  | None => "no status"
  end ++ " in query".

(** Lines 246-252, the [for] loop over one page: [articles] and [n_left]
    are the two variables it updates. *)
Fixpoint scan_entries (submitted_date_str : string) (page : list FeedEntry)
    (articles : list FeedEntry) (n_left : Z) : list FeedEntry * Z :=
  match page with
  | [] => (articles, n_left)
  | entry :: rest =>
      if str_in submitted_date_str (get_date entry) then
        scan_entries submitted_date_str rest (articles ++ [entry]) n_left
      else (articles, 0)
  end.

(** The local variables of [_query_daily_paper] that the [while] loop
    updates. *)
Record loop_state : Type := mkState {
  articles : list FeedEntry;
  n_left : Z;
  n_start : Z
}.

(** How one run of the loop body ends. *)
Inductive step : Type :=
| Next (st : loop_state) (evs : list event)      (* back to the loop test *)
| Break (st : loop_state) (evs : list event)     (* break *)
| Throw (e : exn) (evs : list event).            (* an exception escapes *)

Section DailyLoop.

(** [self.category], the answer of the feed to the [k]-th request of
    the run, the page size and the date looked for. *)
Variable category : search_input.
Variable parse : nat -> string -> FeedResult.
Variable res_per_iter : Z.
Variable submitted_date_str : string.

(** Lines 230-255: the body of the [while] loop, as the [k]-th request. *)
Definition loop_body (k : nat) (st : loop_state) : step :=
  match
    (s <- Search_init category ;;
     Finalize s (n_start st) res_per_iter default_sort_by default_sort_order)
  with
  | Raise e => Throw e []
  | Ok search =>
      let res := parse k search in
      if status_not_200 res then
        Break st [EFetch search; EPrint (http_error_line res)]
      else
        let page := entries res in
        let n_left1 := n_left st - Z.of_nat (List.length page) in
        let n_start1 := n_start st + Z.of_nat (List.length page) in
        if (List.length page =? 0)%nat then
          Break (mkState (articles st) n_left1 n_start1)
                [EFetch search; EPrint "No more fetch"]
        else
          let '(articles2, n_left2) :=
            scan_entries submitted_date_str page (articles st) n_left1 in
          Next (mkState articles2 n_left2 n_start1)
               (EFetch search :: if n_left2 >? res_per_iter then [ESleep] else [])
      end.

(** Lines 229-255: [while n_left > 0: ...].  Every turn that comes
    back to the loop test has lowered [n_left]. *)
Equations? while_loop (k : nat) (st : loop_state) : result loop_state * list event
  by wf (Z.to_nat (n_left st)) lt :=
  while_loop k st with inspect (n_left st >? 0) := {
    | exist _ false _ => (Ok st, []);
    | exist _ true Hpos with inspect (loop_body k st) := {
        | exist _ (Throw e evs) _ => (Raise e, evs);
        | exist _ (Break st' evs) _ => (Ok st', evs);
        | exist _ (Next st' evs) Hbody =>
            let '(r, evs') := while_loop (S k) st' in (r, (evs ++ evs')%list) } }.
Proof.
  unfold loop_body in Hbody.
  destruct (s <- Search_init category ;; _) as [search|]; [|discriminate].
  destruct (status_not_200 _); [discriminate|].
  destruct (_ =? 0)%nat eqn:Hlen; [discriminate|].
  apply Nat.eqb_neq in Hlen.
  destruct (scan_entries _ _ _ _) as [a2 l2] eqn:Hscan.
  injection Hbody as <- _. cbn [n_left].
  assert (Hl2 : l2 = n_left st - Z.of_nat (List.length (entries (parse k search))) \/ l2 = 0).
  { clear - Hscan. revert Hscan. generalize (articles st).
    induction (entries (parse k search)) as [|e page IH] at 1; cbn; intros acc H.
    - injection H as _ <-. now left.
    - destruct (str_in _ _); [eauto | injection H as _ <-; now right]. }
  apply Z.gtb_lt in Hpos. lia.
Qed.

End DailyLoop.

(** [ArxivParser.__init__]: [self.category = category or 'cs.CV']. *)
Definition ArxivParser_category (category : option search_input) : search_input :=
  match category with
  | None | Some (AStr EmptyString) | Some (AList []) => AStr "cs.CV"
  | Some c => c
  end.

(** [_query_daily_paper(self, start, max_results, res_per_iter)], run on
    the day [today] against the feed [parse]: the returned [articles]
    (or the exception) and what was done to the outside. *)
Definition _query_daily_paper (category : search_input) (today : Date.t)
    (parse : nat -> string -> FeedResult) (start max_results res_per_iter : Z)
    : result (list FeedEntry) * list event :=
  match target_date today with
  | Raise e => (Raise e, [])
  | Ok submitted_date =>
      let submitted_date_str := Date.strftime_ymd submitted_date in
      let '(r, evs) :=
        while_loop category parse res_per_iter submitted_date_str 0%nat
                   (mkState [] max_results start) in
      (st <- r ;; Ok (articles st), evs)
  end.

(* ===================================================================== *)
(** ** [class Article] and [ArxivParser.run_daily_search] *)

(** [s.replace(old, new)] for a nonempty [old]: the occurrences of [old]
    are replaced from the left, without overlap; [skip] counts the
    characters of an occurrence that are still to be passed over. *)
Fixpoint replace_from (old new : string) (skip : nat) (s : string) : string :=
  match s with
  | EmptyString => EmptyString
  | String c t =>
      match skip with
      | S k => replace_from old new k t
      | O =>
          if String.prefix old s then
            new ++ replace_from old new (String.length old - 1) t
          else String c (replace_from old new 0 t)
      end
  end.

(** [s.replace(old, new)]; an empty [old] matches before every
    character and at the end. *)
Definition replace (old new s : string) : string :=
  match old with
  | EmptyString =>
      new ++ String.concat "" (map (fun c => String c new) (list_ascii_of_string s))
  | _ => replace_from old new 0 s
  end.

(** [c.lower()] for a character below 256: the letters A-Z and the
    accented capitals of Latin-1 move up by 32. *)
Definition lower_ascii (c : ascii) : ascii :=
  let n := nat_of_ascii c in
  if ((65 <=? n) && (n <=? 90) ||
      (192 <=? n) && (n <=? 222) && negb (n =? 215))%nat
  then ascii_of_nat (n + 32) else c.

(** [s.lower()] *)
Fixpoint lower (s : string) : string :=
  match s with
  | EmptyString => EmptyString
  | String c t => String (lower_ascii c) (lower t)
  end.

(** The line feed character. *)
Definition LF : string := String "010" EmptyString.

Module Article.

Record t : Type := mk {
  title : string;
  authors : list string;
  summary : string;
  date : string;
  link : string
}.

(** [Article.__init__] *)
Definition init (title : string) (authors : list string) (summary date link : string) : t :=
  mk (replace "  " " " (replace LF " " title))
     authors
     (replace "  " " " (replace LF " " summary))
     date
     link.

End Article.

(** What can escape from [run_daily_search] and from the callbacks of
    the bot: an exception of the query, the [AttributeError] of an
    attribute that is not there, the [KeyError] of a key that is not
    there, the [IndexError] of an index out of range, or the
    [RuntimeError] that the bot raises itself. *)
Inductive daily_exn : Type :=
| QueryError (e : exn)
| AttributeError (name : string)
| KeyError (key : string)
| IndexError (text : string)
| BotRuntimeError (text : string).

Inductive outcome (A : Type) : Type :=
| Done (a : A)
| Failed (e : daily_exn).

Arguments Done {A} a.
Arguments Failed {A} e.

(** Lines 276-277: the test on one paper. *)
Definition keep_paper (keywords : list string) (paper : Article.t) : bool :=
  (List.length keywords =? 0)%nat ||
  existsb (fun kw => str_in kw (lower (Article.title paper))) keywords.

(** Line 271: [[author['name'] for author in art.authors]]; [None]
    when an author has no name. *)
Fixpoint author_names (authors : list (option string)) : option (list string) :=
  match authors with
  | [] => Some []
  | None :: _ => None
  | Some name :: rest =>
      match author_names rest with
      | Some names => Some (name :: names)
      | None => None
      end
  end.

(** Lines 270-275: the article made of one entry.  The attributes are
    read in the order title, authors, summary, link, date, and the
    first that is missing raises. *)
Definition entry_paper (art : FeedEntry) : outcome Article.t :=
  match entry_title art with
  | None => Failed (AttributeError "title")
  | Some title =>
      match entry_authors art with
      | None => Failed (AttributeError "authors")
      | Some authors =>
          match author_names authors with
          | None => Failed (KeyError "name")
          | Some authors =>
              match entry_summary art with
              | None => Failed (AttributeError "summary")
              | Some summary =>
                  match entry_link art with
                  | None => Failed (AttributeError "link")
                  | Some link =>
                      match entry_date art with
                      | None => Failed (AttributeError "date")
                      | Some date =>
                          Done (Article.init title authors summary date link)
                      end
                  end
              end
          end
      end
  end.

(** Lines 269-278: the loop over the entries of the day. *)
Fixpoint select_papers (keywords : list string) (daily_articles : list FeedEntry)
    (articles : list Article.t) : outcome (list Article.t) :=
  match daily_articles with
  | [] => Done articles
  | art :: rest =>
      match entry_paper art with
      | Failed e => Failed e
      | Done paper =>
          select_papers keywords rest
            (if keep_paper keywords paper then articles ++ [paper] else articles)
      end
  end.

(** [run_daily_search(self, keywords)] *)
Definition run_daily_search (category : search_input) (today : Date.t)
    (parse : nat -> string -> FeedResult) (keywords : list string)
    : outcome (list Article.t) * list event :=
  let '(r, evs) := _query_daily_paper category today parse 0 200 100 in
  match r with
  | Raise e => (Failed (QueryError e), evs)
  | Ok daily_articles => (select_papers keywords daily_articles [], evs)
  end.

(* ===================================================================== *)
(** ** [bot.py]: keywords and the daily report *)

(** A block of a chat message. *)
Inductive block : Type :=
| Divider
| Section_mrkdwn (text : string).

(** The text of a plain reply, kept structured where a list is
    formatted into it. *)
Inductive reply : Type :=
| Added_following_keywords (new_kw : list string)
| Plain (text : string).

(** What a callback of the bot does to the outside. *)
Inductive bot_event : Type :=
| SaveConfig (keywords authors : list string)            (* _save_config *)
| PostText (channel : option string) (text : reply)      (* chat_postMessage(text=) *)
| PostBlocks (channel : option string) (blocks : list block).

(** The fields of a [BotCommand] that the callbacks read. *)
Record BotCommand : Type := mkCommand {
  cmd : option string;
  args : option string;
  user : option string;
  channel : option string
}.

(** Lines 304-306: one turn of the loop over the new keywords. *)
Definition add_keyword (keywords : list string) (kw : string) : list string :=
  let kw := lower kw in
  if negb (str_mem kw keywords) then keywords ++ [kw] else keywords.

(** [_add_keyords_callback]: the new list of keywords, and what is
    saved and posted. *)
Definition _add_keyords_callback (keywords authors : list string) (c : BotCommand)
    : outcome (list string * list bot_event) :=
  match args c with
  | None => Failed (AttributeError "split")
  | Some a =>
      let new_kw := split " " a in
      let keywords' := fold_left add_keyword new_kw keywords in
      Done (keywords',
            [SaveConfig keywords' authors;
             PostText (channel c) (Added_following_keywords new_kw)])
  end.

(** [range(0, stop, step)] *)
Definition range_step (stop step : nat) : list nat :=
  map (fun i => i * step)%nat (seq 0 ((stop + step - 1) / step)).

(** [l[start:stop]] *)
Definition slice {A : Type} (l : list A) (start stop : nat) : list A :=
  firstn (stop - start) (skipn start l).

(** Lines 344-355: the two blocks of the [k]-th article out of [n]. *)
Definition article_blocks (n k : nat) (art : Article.t) : list block :=
  let authors := join ", " (Article.authors art) in
  [Divider;
   Section_mrkdwn
     ("[" ++ str_of_int (Z.of_nat k + 1) ++ "/" ++ str_of_int (Z.of_nat n) ++
      "] *<" ++ Article.link art ++ "|" ++ Article.title art ++ ">*" ++ LF ++
      "_*Author(s)*:_ " ++ authors ++ LF ++
      "_" ++ Article.summary art ++ "_")].

(** Lines 342-356: the loop over [enumerate(articles)], from index [k]. *)
Fixpoint body_blocks (n k : nat) (articles : list Article.t) : list block :=
  match articles with
  | [] => []
  | art :: rest => (article_blocks n k art ++ body_blocks n (S k) rest)%list
  end.

(** Lines 335-356: the blocks of the report. *)
Definition report_blocks (today_str : string) (articles : list Article.t) : list block :=
  let n := List.length articles in
  Section_mrkdwn ("Found *" ++ str_of_int (Z.of_nat n) ++ " papers* on Arxiv, " ++ today_str)
    :: body_blocks n 0 articles.

(** Lines 358-365: the report is posted by batches of 50 blocks. *)
Definition post_batches (channel : option string) (blocks : list block) : list bot_event :=
  map (fun k => PostBlocks channel (slice blocks k (k + 50)))
      (range_step (List.length blocks) 50).

(** [_run_daily_arxiv_search]: what is posted, and the requests to the
    feed.  [today] is the day of the query, [now] the day read for the
    header of the report. *)
Definition _run_daily_arxiv_search
    (category : search_input) (today now : Date.t)
    (parse : nat -> string -> FeedResult) (keywords : list string) (c : BotCommand)
    : outcome (list bot_event) * list event :=
  let '(r, evs) :=
    run_daily_search category today parse keywords in
  match r with
  | Failed e => (Failed e, evs)
  | Done articles =>
      (Done (post_batches (channel c) (report_blocks (Date.strftime_ymd now) articles)),
       evs)
  end.

(* ===================================================================== *)
(** ** [bot.py]: reading a command *)

(** Patterns with groups, matched with backtracking as [re] does. *)
Module Rx.

(** [\w] on the characters below 256. *)
Definition word (c : ascii) : bool :=
  let n := nat_of_ascii c in
  existsb (fun r => (fst r <=? n) && (n <=? snd r))%nat
    [(48, 57); (65, 90); (95, 95); (97, 122); (170, 170); (178, 179);
     (181, 181); (185, 186); (188, 190); (192, 214); (216, 246); (248, 255)]%nat.

(** [.]: any character but the line feed. *)
Definition any (c : ascii) : bool := negb (Ascii.eqb c "010").

(** One given character. *)
Definition chr (x c : ascii) : bool := Ascii.eqb c x.

Inductive tok : Type :=
| Bol                          (* ^  *)
| One (a : ascii -> bool)      (* a  *)
| Opt (a : ascii -> bool)      (* a? *)
| Star (a : ascii -> bool)     (* a* *)
| Open                         (* (  *)
| Close.                       (* )  *)

Definition pattern := list tok.

(** The groups closed so far, and the text of the group that is open. *)
Record caps : Type := mkCaps {
  closed : list string;
  opened : option string
}.

Definition push (c : ascii) (st : caps) : caps :=
  match opened st with
  | Some g => mkCaps (closed st) (Some (g ++ String c ""))
  | None => st
  end.

Definition open_group (st : caps) : caps := mkCaps (closed st) (Some "").

Definition close_group (st : caps) : caps :=
  match opened st with
  | Some g => mkCaps (closed st ++ [g]) None
  | None => st
  end.

(** [match_here p bos s st]: the groups of a match of [p] at the head
    of [s].  [a*] and [a?] are greedy: they first take a character and
    give it back only when the rest of the pattern fails. *)
Fixpoint match_here (p : pattern) : bool -> string -> caps -> option caps :=
  match p with
  | [] => fun _ _ st => Some st
  | Bol :: r => fun bos s st => if bos then match_here r bos s st else None
  | Open :: r => fun bos s st => match_here r bos s (open_group st)
  | Close :: r => fun bos s st => match_here r bos s (close_group st)
  | One a :: r => fun _ s st =>
      match s with
      | String c t => if a c then match_here r false t (push c st) else None
      | EmptyString => None
      end
  | Opt a :: r => fun bos s st =>
      let taken :=
        match s with
        | String c t => if a c then match_here r false t (push c st) else None
        | EmptyString => None
        end in
      match taken with
      | Some g => Some g
      | None => match_here r bos s st
      end
  | Star a :: r =>
      fix star (bos : bool) (s : string) (st : caps) : option caps :=
        let more :=
          match s with
          | String c t => if a c then star false t (push c st) else None
          | EmptyString => None
          end in
        match more with
        | Some g => Some g
        | None => match_here r bos s st
        end
  end.

(** [pattern.search(s)] and [res.groups()]. *)
Fixpoint search_from (p : pattern) (bos : bool) (s : string) : option (list string) :=
  match match_here p bos s (mkCaps [] None) with
  | Some st => Some (closed st)
  | None =>
      match s with
      | EmptyString => None
      | String _ t => search_from p false t
      end
  end.

Definition search (p : pattern) (s : string) : option (list string) :=
  search_from p true s.

End Rx.

(** The pattern of [_initialize_self_mention] (line 251): at the
    beginning, a group made of [<@], word characters and [>]; a space;
    a group of word characters; a space or none; a group of characters
    up to the end of the line. *)
Definition self_mention : Rx.pattern :=
  [Rx.Bol;
   Rx.Open; Rx.One (Rx.chr "<"); Rx.One (Rx.chr "@"); Rx.Star Rx.word;
   Rx.One (Rx.chr ">"); Rx.Close;
   Rx.One (Rx.chr " ");
   Rx.Open; Rx.Star Rx.word; Rx.Close;
   Rx.Opt (Rx.chr " ");
   Rx.Open; Rx.Star Rx.any; Rx.Close].

(** The ['data'] of a payload: the keys that [FromText] reads. *)
Record message : Type := mkMessage {
  msg_text : option string;
  msg_channel : option string;
  msg_user : option string
}.

(** [BotCommand.FromText(search, payload)], [data] being
    [payload.get('data', None)]. *)
Definition FromText (search : Rx.pattern) (data : option message) : outcome BotCommand :=
  match data with
  | None => Failed (AttributeError "get")
  | Some data =>
      let no_command := Done (mkCommand None None None None) in
      match msg_text data with
      | None | Some EmptyString => no_command
      | Some text =>
          match Rx.search search text with
          | None => no_command
          | Some groups =>
              match groups with
              | _ :: command :: rest =>
                  let args :=
                    match rest with
                    | [] => None
                    | a :: _ => Some a
                    end in
                  Done (mkCommand (Some command) args (msg_user data) (msg_channel data))
              | _ => Failed (IndexError "tuple index out of range")
              end
          end
      end
  end.

(** The callbacks of [_known_cmd], and the one for the other commands. *)
Inductive callback : Type :=
| Help_callback
| List_keywords_callback
| Add_keywords_callback
| Run_daily_arxiv_search
| Boilerplate_callback.

(** [self._known_cmd.get(name, None)] *)
Definition known_cmd (name : string) : option callback :=
  if String.eqb name "help" then Some Help_callback
  else if String.eqb name "list_keywords" then Some List_keywords_callback
  else if String.eqb name "add_keywords" then Some Add_keywords_callback
  else if String.eqb name "run_daily_arxiv_search" then Some Run_daily_arxiv_search
  else None.

(** [message_callback]: the callback that is run, if any, and the
    command it is given. *)
Definition message_callback (search : Rx.pattern) (data : option message)
    : outcome (option (callback * BotCommand)) :=
  match FromText search data with
  | Failed e => Failed e
  | Done c =>
      match cmd c with
      | None | Some EmptyString => Done None
      | Some name =>
          match known_cmd name with
          | Some cb => Done (Some (cb, c))
          | None => Done (Some (Boilerplate_callback, c))
          end
      end
  end.



(** A channel of [conversations_list]: its ['name'] and its ['id']. *)
Record chat_channel : Type := mkChannel {
  chan_name : string;
  chan_id : string
}.

(** Line 213: [self._channel[1:] if self._channel[0] == '#' else
    self._channel]. *)
Definition host_chan (channel : string) : outcome string :=
  match channel with
  | EmptyString => Failed (IndexError "string index out of range")
  | String c t => Done (if Ascii.eqb c "#" then t else channel)
  end.

(** Lines 214-218: the greeting goes to the first channel of that
    name. *)
Fixpoint greet (host : string) (channels : list chat_channel) : list bot_event :=
  match channels with
  | [] => []
  | c :: rest =>
      if String.eqb (chan_name c) host
      then [PostText (Some (chan_id c)) (Plain "PaperBot is now online.")]
      else greet host rest
  end.

(** [open_callback], [auth_error] being the ['error'] of [auth_test()]
    when it is not ['ok'], and [channels] the answer of
    [conversations_list()]. *)
Definition open_callback (channel : string) (auth_error : option string)
    (channels : list chat_channel) : outcome (list bot_event) :=
  match auth_error with
  | Some error => Failed (BotRuntimeError ("Could not retrive bot ID: " ++ error))
  | None =>
      match host_chan channel with
      | Failed e => Failed e
      | Done host => Done (greet host channels)
      end
  end.

(* ===================================================================== *)
(** ** Notions used to state the properties *)

(** The longest prefix of [l] whose elements all satisfy [p]. *)
Fixpoint take_while {A : Type} (p : A -> bool) (l : list A) : list A :=
  match l with
  | [] => []
  | x :: rest => if p x then x :: take_while p rest else []
  end.

(** The longest prefix of [s] whose characters all satisfy [a]. *)
Fixpoint leading_run (a : ascii -> bool) (s : string) : string :=
  match s with
  | EmptyString => EmptyString
  | String c t => if a c then String c (leading_run a t) else EmptyString
  end.

(** The result of a pattern that matches the whole leading run of
    category characters as soon as the run has [n] characters. *)
Definition run_of_at_least (n : nat) (s : string) : option string :=
  let run := leading_run Re.cat_char s in
  if (n <=? String.length run)%nat then Some run else None.

(** The date of an entry contains the date looked for (line 248). *)
Definition on_date (submitted_date_str : string) (entry : FeedEntry) : bool :=
  str_in submitted_date_str (get_date entry).

(** The request of the daily fetch for the page at offset [start]. *)
Definition page_url (s : Search) (start res_per_iter : Z) : string :=
  _base_url ++
  "search_query=" ++ search_query s ++ "&id_list=" ++ id_list s ++
  "&start=" ++ str_of_int start ++ "&max_results=" ++ str_of_int res_per_iter ++
  "&sortBy=submittedDate&sortOrder=descending".

(** A field of a built search is populated when it is not the empty
    string. *)
Definition populated (field : string) : Prop := field <> "".

(** Exactly one of the two fields of a built search is populated. *)
Definition exactly_one_populated (s : Search) : Prop :=
  (populated (search_query s) /\ id_list s = "") \/
  (search_query s = "" /\ populated (id_list s)).

(** A token that is neither a category nor a paper identifier. *)
Definition free_text (token : string) : Prop :=
  _is_category token = false /\ _is_paper_id token = false.

(** The values of [sort_by] as the specification names them. *)
Definition spec_sort_by_values : list string :=
  ["relevance"; "last-updated"; "submitted"].

(** White space: space, tab, line feed, vertical tab, form feed and
    carriage return. *)
Definition is_space (c : ascii) : bool :=
  Ascii.eqb c " " || Re.in_range "009" "013" c.

(** The word being read at the head of [s] and the words after it. *)
Fixpoint words_from (s : string) : string * list string :=
  match s with
  | EmptyString => (EmptyString, [])
  | String c t =>
      let '(w, ws) := words_from t in
      if is_space c then
        (EmptyString, match w with EmptyString => ws | _ => w :: ws end)
      else (String c w, ws)
  end.

(** Splitting on whitespace, as the specification words it: the words
    of a text, cut at runs of white space. *)
Definition spec_split_whitespace (s : string) : list string :=
  let '(w, ws) := words_from s in
  match w with EmptyString => ws | _ => w :: ws end.

(** [FromSubject] as the specification words it: split on whitespace,
    each word as [all:<word>], AND-joined, in [search_query]. *)
Definition spec_FromSubject (subject : string) : Search :=
  mkSearch (join "+AND+" (map (fun p => "all:" ++ p) (spec_split_whitespace subject))) "".

(** The text has a digit, a dot and a digit in a row. *)
Fixpoint digit_dot_digit (s : string) : bool :=
  match s with
  | EmptyString => false
  | String c1 t =>
      match t with
      | String c2 (String c3 _) => Re.digit c1 && Re.dot c2 && Re.digit c3
      | _ => false
      end || digit_dot_digit t
  end.

(** The test of [digit_dot_digit] on the first three characters. *)
Definition head_window (s : string) : bool :=
  match s with
  | String c1 (String c2 (String c3 _)) => Re.digit c1 && Re.dot c2 && Re.digit c3
  | _ => false
  end.

(** A character that is neither a digit nor a dot. *)
Definition plain (c : ascii) : bool := negb (Re.digit c) && negb (Re.dot c).

(** The requests to the feed among the events of a run. *)
Definition is_fetch (e : event) : bool :=
  match e with
  | EFetch _ => true
  | _ => false
  end.

Definition count_fetches (evs : list event) : nat :=
  List.length (filter is_fetch evs).

(** What is left of [s] after its leading run of [a]. *)
Fixpoint drop_run (a : ascii -> bool) (s : string) : string :=
  match s with
  | EmptyString => EmptyString
  | String c t => if a c then drop_run a t else s
  end.

(** [s] without one space at its head, if it has one. *)
Definition drop_space (s : string) : string :=
  match s with
  | String c t => if Ascii.eqb c " " then t else s
  | EmptyString => EmptyString
  end.

(** The characters of [txt] taken one after the other into the open
    group. *)
Fixpoint push_all (txt : string) (st : Rx.caps) : Rx.caps :=
  match txt with
  | EmptyString => st
  | String c t => push_all t (Rx.push c st)
  end.

(** The text begins with a mention: [<@], word characters, [>] and a
    space. *)
Definition begins_with_mention (text : string) : Prop :=
  exists id rest,
    text = ("<@" ++ id ++ "> " ++ rest)%string /\
    forallb Rx.word (list_ascii_of_string id) = true.

(** The character [c] occurs in [s]. *)
Fixpoint has_char (c : ascii) (s : string) : bool :=
  match s with
  | EmptyString => false
  | String c' t => Ascii.eqb c' c || has_char c t
  end.

(** Sample feed entries and feeds, used to run the statements below. *)
Definition entry_oct30 : FeedEntry :=
  mkEntry (Some "2026-10-30T17:59:12Z") (Some "Diffusion models")
          (Some [Some "A. Author"; Some "B. Author"]) (Some "We study diffusion.")
          (Some "http://arxiv.org/abs/2610.00001v1").
Definition entry_oct29 : FeedEntry :=
  mkEntry (Some "2026-10-29T17:59:58Z") (Some "Older paper")
          (Some [Some "C. Author"]) (Some "An older study.")
          (Some "http://arxiv.org/abs/2610.00002v1").
Definition sample_page : list FeedEntry :=
  [entry_oct30; entry_oct30; entry_oct30; entry_oct29; entry_oct30].
Definition feed_sample (k : nat) (url : string) : FeedResult :=
  mkFeed (Some 200) sample_page.
Definition feed_down (k : nat) (url : string) : FeedResult :=
  mkFeed (Some 503) [].
Definition feed_100_then_empty (k : nat) (url : string) : FeedResult :=
  match k with
  | O => mkFeed (Some 200) (repeat entry_oct30 100)
  | _ => mkFeed (Some 200) []
  end.
(** 2026-11-02, a Monday. *)
Definition monday_2026_11_02 : Date.t := Date.mk 739922.

(** A feed whose first two pages are full. *)
Definition feed_full_pages (k : nat) (url : string) : FeedResult :=
  match k with
  | O | S O => mkFeed (Some 200) (repeat entry_oct30 100)
  | _ => mkFeed (Some 200) []
  end.

(** The article of [entry_oct30]. *)
Definition paper_oct30 : Article.t :=
  Article.init "Diffusion models" ["A. Author"; "B. Author"] "We study diffusion."
               "2026-10-30T17:59:12Z" "http://arxiv.org/abs/2610.00001v1".

(** An entry of the day without summary, and a feed that serves it
    after a whole entry. *)
Definition entry_no_summary : FeedEntry :=
  mkEntry (Some "2026-10-30T09:00:00Z") (Some "No abstract")
          (Some [Some "D. Author"]) None
          (Some "http://arxiv.org/abs/2610.00003v1").
Definition feed_no_summary (k : nat) (url : string) : FeedResult :=
  mkFeed (Some 200) [entry_oct30; entry_no_summary; entry_oct29].



(** A capital letter A-Z. *)
Definition is_upper (c : ascii) : bool := Re.in_range "A" "Z" c.

(* ===================================================================== *)
(** * Properties *)

Open Scope list_scope.

(* --------------------------------------------------------------------- *)
(** ** The definitions at work *)

Example ex_str_of_int : map str_of_int [0; 7; 100; -12] = ["0"; "7"; "100"; "-12"].
Proof. reflexivity. Qed.

Example ex_is_category :
  map _is_category ["cs.CV"; "cs"; "stat.ML"; "cs.C"; "2101.01234"; "hello world"]
  = [true; false; true; false; false; true].
Proof. reflexivity. Qed.

Example ex_is_paper_id :
  map _is_paper_id ["2101.01234"; "cs.CV"; "v1.2x"; "12."; ".5"; ""]
  = [true; false; true; false; false; false].
Proof. reflexivity. Qed.

Example ex_split :
  split " " "deep  learning" = ["deep"; ""; "learning"] /\ split " " "" = [""].
Proof. split; reflexivity. Qed.

Example ex_strftime :
  map (fun n => Date.strftime_ymd (Date.mk n))
      [1; 365; 366; 1461; 1462; 36524; 36525; 146097; 146098;
       730179; 730180; 739922; 740000; Date._MAXORDINAL]
  = ["0001-01-01"; "0001-12-31"; "0002-01-01"; "0004-12-31"; "0005-01-01";
     "0100-12-31"; "0101-01-01"; "0400-12-31"; "0401-01-01";
     "2000-02-29"; "2000-03-01"; "2026-11-02"; "2027-01-19"; "9999-12-31"]%string.
Proof. reflexivity. Qed.

Example ex_weekday :
  map (fun n => Date.weekday (Date.mk n)) [1; 739919; 739921; 739922; 739923]
  = [0; 4; 6; 0; 1].
Proof. reflexivity. Qed.

Example ex_ArxivParser_category :
  map ArxivParser_category [None; Some (AStr ""); Some (AList []); Some (AList ["cs.AI"%string])]
  = [AStr "cs.CV"; AStr "cs.CV"; AStr "cs.CV"; AList ["cs.AI"%string]].
Proof. reflexivity. Qed.

Example ex_two_pages :
  _query_daily_paper (AList ["cs.CV"; "cs.AI"]%string) monday_2026_11_02
    (fun k _ => match k with
                | O => mkFeed (Some 200) [entry_oct30; entry_oct30]
                | _ => mkFeed (Some 200) [entry_oct30; entry_oct29; entry_oct30]
                end) 0 200 2
  = (Ok [entry_oct30; entry_oct30; entry_oct30],
     [EFetch (page_url (mkSearch "cat:cs.CV+OR+cat:cs.AI" "") 0 2); ESleep;
      EFetch (page_url (mkSearch "cat:cs.CV+OR+cat:cs.AI" "") 2 2)]).
Proof. reflexivity. Qed.

(* --------------------------------------------------------------------- *)
(** ** The two classifiers *)

Section Classifiers.

Import Re.

Lemma plus_cons a r bos c t :
  match_here (Plus a :: r) bos (String c t) =
  if a c then
    match match_here (Plus a :: r) false t with
    | Some txt => Some (String c txt)
    | None => cons_match c (match_here r false t)
    end
  else None.
Proof. reflexivity. Qed.

Lemma plus_nil a r bos : match_here (Plus a :: r) bos "" = None.
Proof. reflexivity. Qed.

Lemma dot_cat_char c : dot c = true -> cat_char c = true.
Proof.
  unfold dot, cat_char. intros ->. rewrite orb_true_r. reflexivity.
Qed.

Lemma last_plus bos s :
  match_here [Plus cat_char] bos s = run_of_at_least 1 s.
Proof.
  revert bos. induction s as [|c t IH]; intros bos.
  - reflexivity.
  - rewrite plus_cons, IH. unfold run_of_at_least. cbn [leading_run].
    destruct (cat_char c); [|reflexivity].
    cbn [String.length]. destruct (leading_run cat_char t); reflexivity.
Qed.

Lemma opt_dot_plus bos s :
  match_here [Opt dot; Plus cat_char] bos s = run_of_at_least 1 s.
Proof.
  destruct s as [|c t].
  - reflexivity.
  - change (match_here [Opt dot; Plus cat_char] bos (String c t))
      with (match (if dot c then cons_match c (match_here [Plus cat_char] false t)
                   else None) with
            | Some txt => Some txt
            | None => match_here [Plus cat_char] bos (String c t)
            end).
    rewrite !last_plus.
    destruct (dot c) eqn:Hdot; [|reflexivity].
    apply dot_cat_char in Hdot.
    unfold run_of_at_least. cbn [leading_run]. rewrite Hdot.
    cbn [String.length]. destruct (leading_run cat_char t); reflexivity.
Qed.

Lemma category_body bos s :
  match_here [Plus cat_char; Opt dot; Plus cat_char] bos s = run_of_at_least 2 s.
Proof.
  revert bos. induction s as [|c t IH]; intros bos.
  - reflexivity.
  - rewrite plus_cons, IH, opt_dot_plus. unfold run_of_at_least.
    cbn [leading_run]. destruct (cat_char c); [|reflexivity].
    cbn [String.length].
    destruct (leading_run cat_char t) as [|c1 [|c2 u]]; reflexivity.
Qed.

Lemma bol_not_later r s : search_from (Bol :: r) false s = None.
Proof. induction s as [|c t IH]; [reflexivity | exact IH]. Qed.

Lemma search_category s :
  search category_pattern s = run_of_at_least 2 s.
Proof.
  unfold search, category_pattern.
  assert (H : match_here [Bol; Plus cat_char; Opt dot; Plus cat_char] true s
              = run_of_at_least 2 s) by apply (category_body true).
  destruct s as [|c t]; cbn [search_from]; rewrite H.
  - reflexivity.
  - rewrite bol_not_later. destruct (run_of_at_least 2 _); reflexivity.
Qed.

(** A token is a category exactly when it starts with more than four
    letters, dots and hyphens. *)
Lemma _is_category_run s :
  _is_category s = (4 <? String.length (leading_run cat_char s))%nat.
Proof.
  unfold _is_category. rewrite search_category. unfold run_of_at_least.
  destruct (2 <=? _)%nat eqn:H2; [reflexivity|].
  apply Nat.leb_gt in H2. symmetry. apply Nat.ltb_ge. lia.
Qed.

Lemma _is_paper_id_nonempty s : _is_paper_id s = true -> s <> "".
Proof. intros H ->. discriminate H. Qed.

End Classifiers.

(* --------------------------------------------------------------------- *)
(** ** The scan of one page *)

Lemma take_while_all {A : Type} (p : A -> bool) (l : list A) :
  forallb p (take_while p l) = true.
Proof.
  induction l as [|x l IH]; cbn; [reflexivity|].
  destruct (p x) eqn:Hx; cbn; [rewrite Hx; exact IH | reflexivity].
Qed.

Lemma take_while_id {A : Type} (p : A -> bool) (l : list A) :
  forallb p l = true -> take_while p l = l.
Proof.
  induction l as [|x l IH]; cbn; [reflexivity|].
  intros [-> H]%andb_prop. now rewrite IH.
Qed.

Lemma take_while_stop {A : Type} (p : A -> bool) (kept : list A) (bad : A) (later : list A) :
  forallb p kept = true -> p bad = false ->
  take_while p (kept ++ bad :: later) = kept.
Proof.
  induction kept as [|x kept IH]; cbn; intros Hk Hb.
  - now rewrite Hb.
  - apply andb_prop in Hk as [-> Hk]. now rewrite IH.
Qed.

Lemma forallb_stop {A : Type} (p : A -> bool) (kept : list A) (bad : A) (later : list A) :
  p bad = false -> forallb p (kept ++ bad :: later) = false.
Proof.
  intros Hb. rewrite forallb_app. cbn. rewrite Hb. apply andb_false_r.
Qed.

(** A list with an element that fails [p] splits at the first such
    element. *)
Lemma take_while_split {A : Type} (p : A -> bool) (l : list A) :
  forallb p l = false ->
  exists bad later, l = take_while p l ++ bad :: later /\ p bad = false.
Proof.
  induction l as [|x l IH]; cbn; [discriminate|].
  destruct (p x) eqn:Hx; cbn.
  - intros H. destruct (IH H) as (bad & later & Hl & Hb).
    exists bad, later. split; [now rewrite <- Hl | exact Hb].
  - intros _. now exists x, l.
Qed.

Lemma scan_entries_spec d page : forall acc n,
  scan_entries d page acc n =
  ((acc ++ take_while (on_date d) page)%list,
   if forallb (on_date d) page then n else 0).
Proof.
  induction page as [|e page IH]; intros acc n; cbn.
  - now rewrite app_nil_r.
  - fold (on_date d e). destruct (on_date d e); cbn.
    + rewrite IH, <- app_assoc. reflexivity.
    + now rewrite app_nil_r.
Qed.

(* --------------------------------------------------------------------- *)
(** ** The loop *)

Lemma Finalize_defaults s start max_results :
  Finalize s start max_results default_sort_by default_sort_order
  = Ok (page_url s start max_results).
Proof. reflexivity. Qed.

Section LoopFacts.

Variable category : search_input.
Variable parse : nat -> string -> FeedResult.
Variable res_per_iter : Z.
Variable d : string.

Local Abbreviation loop := (while_loop category parse res_per_iter d).
Local Abbreviation body := (loop_body category parse res_per_iter d).

Lemma while_loop_eq k st :
  loop k st =
  if n_left st >? 0 then
    match body k st with
    | Throw e evs => (Raise e, evs)
    | Break st' evs => (Ok st', evs)
    | Next st' evs =>
        let '(r, evs') := loop (S k) st' in (r, (evs ++ evs')%list)
    end
  else (Ok st, []).
Proof.
  rewrite while_loop_equation_1.
  destruct (Logic.inspect (n_left st >? 0)) as [[] Hb]; simp while_loop.
  - destruct (Logic.inspect (body k st)) as [[] Hs];
      simp while_loop; rewrite Hb, Hs; rewrite <- ?while_loop_equation_1;
      reflexivity.
  - rewrite Hb. reflexivity.
Qed.

(** The loop test fails: nothing is requested. *)
Lemma while_loop_exit k st : n_left st <= 0 -> loop k st = (Ok st, []).
Proof.
  intros H. rewrite while_loop_eq.
  destruct (n_left st >? 0) eqn:E; [apply Z.gtb_lt in E; lia | reflexivity].
Qed.

Lemma while_loop_enter k st :
  0 < n_left st ->
  loop k st =
  match body k st with
  | Throw e evs => (Raise e, evs)
  | Break st' evs => (Ok st', evs)
  | Next st' evs => let '(r, evs') := loop (S k) st' in (r, (evs ++ evs')%list)
  end.
Proof.
  intros H. rewrite while_loop_eq.
  destruct (n_left st >? 0) eqn:E; [reflexivity | rewrite Z.gtb_ltb in E; apply Z.ltb_ge in E; lia].
Qed.

Variable s : Search.
Hypothesis Hsearch : Search_init category = Ok s.


(** The body on an empty page (lines 240-245). *)
Lemma body_empty_page k st :
  status (parse k (page_url s (n_start st) res_per_iter)) = Some 200 ->
  entries (parse k (page_url s (n_start st) res_per_iter)) = [] ->
  body k st =
  Break (mkState (articles st) (n_left st - 0) (n_start st + 0))
        [EFetch (page_url s (n_start st) res_per_iter); EPrint "No more fetch"].
Proof.
  intros Hst Hen. unfold loop_body. rewrite Hsearch. cbn [bind].
  rewrite Finalize_defaults. unfold status_not_200. rewrite Hst, Hen.
  reflexivity.
Qed.

(** The body on a page with entries (lines 240-255). *)
Lemma body_page k st :
  let url := page_url s (n_start st) res_per_iter in
  let page := entries (parse k url) in
  let len := Z.of_nat (List.length page) in
  let n_left2 := if forallb (on_date d) page then n_left st - len else 0 in
  status (parse k url) = Some 200 ->
  page <> [] ->
  body k st =
  Next (mkState (articles st ++ take_while (on_date d) page) n_left2 (n_start st + len))
       (EFetch url :: if n_left2 >? res_per_iter then [ESleep] else []).
Proof.
  intros url page len n_left2 Hst Hne.
  assert (Hlen : (List.length page =? 0)%nat = false).
  { clearbody page. destruct page; [contradiction | reflexivity]. }
  unfold loop_body. rewrite Hsearch. cbn [bind].
  rewrite Finalize_defaults. unfold status_not_200. fold url. rewrite Hst.
  cbn [Z.eqb Pos.eqb negb]. fold page. rewrite Hlen, scan_entries_spec.
  reflexivity.
Qed.

End LoopFacts.


Lemma forallb_false_nonempty {A : Type} (p : A -> bool) (l : list A) :
  forallb p l = false -> l <> [].
Proof. intros H ->. discriminate H. Qed.

(** C1: the scan of a page keeps, in order, exactly the longest prefix
    of entries whose date contains the date looked for; from the first
    entry of another date on, the entries have no influence on the
    result (they are not looked at), the count of entries left is set
    to 0, and the loop then ends without another request. *)
Theorem C1_scan_stops_at_first_other_date (d : string) (page : list FeedEntry) :
  let kept := take_while (on_date d) page in
  (forall acc n,
     scan_entries d page acc n =
     (acc ++ kept, if forallb (on_date d) page then n else 0)) /\
  forallb (on_date d) kept = true /\
  (forallb (on_date d) page = true -> kept = page) /\
  (forallb (on_date d) page = false ->
   exists bad later,
     page = kept ++ bad :: later /\ on_date d bad = false /\
     forall later' acc n,
       scan_entries d (kept ++ bad :: later') acc n = (acc ++ kept, 0)) /\
  (forall category parse res_per_iter k st s,
     Search_init category = Ok s ->
     0 < n_left st ->
     status (parse k (page_url s (n_start st) res_per_iter)) = Some 200 ->
     entries (parse k (page_url s (n_start st) res_per_iter)) = page ->
     forallb (on_date d) page = false ->
     while_loop category parse res_per_iter d k st =
     (Ok (mkState (articles st ++ kept) 0
                  (n_start st + Z.of_nat (List.length page))),
      EFetch (page_url s (n_start st) res_per_iter)
        :: if 0 >? res_per_iter then [ESleep] else [])).
Proof.
  intros kept. repeat split.
  - intros acc n. apply scan_entries_spec.
  - apply take_while_all.
  - apply take_while_id.
  - intros Hall. destruct (take_while_split _ _ Hall) as (bad & later & Hp & Hb).
    exists bad, later. repeat split; [exact Hp | exact Hb |].
    intros later' acc n. rewrite scan_entries_spec.
    rewrite take_while_stop by (apply take_while_all || exact Hb).
    now rewrite forallb_stop.
  - intros category parse rpi k st s Hs Hpos Hst Hen Hall.
    rewrite while_loop_enter by exact Hpos.
    rewrite (body_page _ _ _ _ _ Hs) by
      (try exact Hst; rewrite Hen; now apply forallb_false_nonempty with (p := on_date d)).
    rewrite Hen, Hall. rewrite while_loop_exit by (cbn; lia).
    now rewrite app_nil_r.
Qed.

Lemma C1_witness :
  while_loop (AStr "cs.CV") feed_sample 100 "2026-10-30" 0 (mkState [] 200 0) =
  (Ok (mkState [entry_oct30; entry_oct30; entry_oct30] 0 5),
   [EFetch (page_url (mkSearch "cat:cs.CV" "") 0 100)]).
Proof.
  apply (proj2 (proj2 (proj2 (proj2
           (C1_scan_stops_at_first_other_date "2026-10-30" sample_page))))
           (AStr "cs.CV") feed_sample 100 0%nat (mkState [] 200 0)
           (mkSearch "cat:cs.CV" "")); reflexivity.
Defined.




Example bad_status_on_first_request :
  _query_daily_paper (AStr "cs.CV") monday_2026_11_02 feed_down 0 200 100 =
  (Ok [],
   [EFetch (page_url (mkSearch "cat:cs.CV" "") 0 100);
    EPrint "HTTP Error 503 in query"]).
Proof. reflexivity. Qed.

(* --------------------------------------------------------------------- *)
(** ** The date looked for *)

Lemma monday_not_first_week today :
  Date.valid today -> Date.weekday today = 0 -> Date.toordinal today <> 1 ->
  8 <= Date.toordinal today.
Proof.
  unfold Date.valid, Date.weekday. intros [Hlo _] Hm Hne.
  pose proof (Z.div_mod (Date.toordinal today + 6) 7 ltac:(lia)). lia.
Qed.

Lemma sub_days_in_range today days :
  1 <= Date.toordinal today - days <= Date._MAXORDINAL ->
  Date.sub_days today days = Ok (Date.mk (Date.toordinal today - days)).
Proof.
  intros [Hlo Hhi]. unfold Date.sub_days.
  replace (0 <? Date.toordinal today - days) with true by (symmetry; apply Z.ltb_lt; lia).
  replace (Date.toordinal today - days <=? Date._MAXORDINAL) with true
    by (symmetry; now apply Z.leb_le).
  reflexivity.
Qed.

(** On the first day of the calendar, a Monday, three days earlier is
    out of the range of [date]. *)
Example target_date_first_day :
  Date.weekday (Date.mk 1) = 0 /\ target_date (Date.mk 1) = Raise OverflowError.
Proof. split; reflexivity. Qed.

(** C3: the date looked for is [today - 3 days] when today is a Monday
    and [today - 1 day] on every other day of the week; except for
    0001-01-01 that date exists, and is the day whose ordinal is lower
    by 3, respectively by 1. *)
Theorem C3_target_date (today : Date.t) :
  (Date.weekday today = 0 -> target_date today = Date.sub_days today 3) /\
  (Date.weekday today <> 0 -> target_date today = Date.sub_days today 1) /\
  (Date.valid today -> Date.toordinal today <> 1 ->
   exists submitted_date,
     target_date today = Ok submitted_date /\
     Date.valid submitted_date /\
     Date.toordinal submitted_date =
     Date.toordinal today - (if Date.weekday today =? 0 then 3 else 1)).
Proof.
  unfold target_date. repeat split.
  - now intros ->.
  - intros H. apply Z.eqb_neq in H. now rewrite H.
  - intros Hv Hne. destruct (Date.weekday today =? 0) eqn:Hw.
    + apply Z.eqb_eq in Hw.
      pose proof (monday_not_first_week today Hv Hw Hne) as H8.
      destruct Hv as [Hlo Hhi]. unfold Date.valid.
      exists (Date.mk (Date.toordinal today - 3)).
      rewrite sub_days_in_range by lia. cbn. repeat split; lia.
    + destruct Hv as [Hlo Hhi]. unfold Date.valid.
      exists (Date.mk (Date.toordinal today - 1)).
      rewrite sub_days_in_range by lia. cbn. repeat split; lia.
Qed.

Lemma C3_witness :
  exists submitted_date,
    target_date monday_2026_11_02 = Ok submitted_date /\
    Date.valid submitted_date /\
    Date.toordinal submitted_date = 739922 - 3.
Proof.
  apply (proj2 (proj2 (C3_target_date monday_2026_11_02))).
  - split; discriminate.
  - discriminate.
Defined.

Example target_date_samples :
  (r <- target_date monday_2026_11_02 ;; Ok (Date.strftime_ymd r)) = Ok "2026-10-30" /\
  (r <- target_date (Date.mk 739923) ;; Ok (Date.strftime_ymd r)) = Ok "2026-11-02" /\
  (r <- target_date (Date.mk 739921) ;; Ok (Date.strftime_ymd r)) = Ok "2026-10-31".
Proof. repeat split; reflexivity. Qed.

(* --------------------------------------------------------------------- *)
(** ** Counting through the pages *)

(** C2: a turn of the loop on a page with entries moves the start
    offset forward by the number of entries of the page, whatever the
    page size asked for, and lowers the count of entries left by that
    same number (the scan then sets it to 0 if it meets another date);
    the loop ends when the count is not positive and when a page is
    empty.  With pages of 100 and 200 entries asked for, a first page of
    100 entries followed by an empty page ends the loop at the second
    page, without exception, with the entries kept from the first
    page. *)
Theorem C2_counts_follow_the_page
  (category : search_input) (parse : nat -> string -> FeedResult)
  (res_per_iter : Z) (s : Search) :
  Search_init category = Ok s ->
  (forall d k st,
     let url := page_url s (n_start st) res_per_iter in
     let page := entries (parse k url) in
     let len := Z.of_nat (List.length page) in
     0 < n_left st ->
     status (parse k url) = Some 200 ->
     page <> [] ->
     exists st' evs,
       loop_body category parse res_per_iter d k st = Next st' evs /\
       n_start st' = n_start st + len /\
       (forallb (on_date d) page = true -> n_left st' = n_left st - len) /\
       (forallb (on_date d) page = false -> n_left st' = 0) /\
       while_loop category parse res_per_iter d k st =
       (let '(r, evs') := while_loop category parse res_per_iter d (S k) st' in
        (r, evs ++ evs'))) /\
  (forall d k st,
     n_left st <= 0 ->
     while_loop category parse res_per_iter d k st = (Ok st, [])) /\
  (forall d k st,
     let url := page_url s (n_start st) res_per_iter in
     0 < n_left st ->
     status (parse k url) = Some 200 ->
     entries (parse k url) = [] ->
     while_loop category parse res_per_iter d k st =
     (Ok (mkState (articles st) (n_left st - 0) (n_start st + 0)),
      [EFetch url; EPrint "No more fetch"])) /\
  (forall today submitted_date page1,
     res_per_iter = 100 ->
     target_date today = Ok submitted_date ->
     parse 0%nat (page_url s 0 100) = mkFeed (Some 200) page1 ->
     List.length page1 = 100%nat ->
     parse 1%nat (page_url s 100 100) = mkFeed (Some 200) [] ->
     let d := Date.strftime_ymd submitted_date in
     _query_daily_paper category today parse 0 200 100 =
     (Ok (take_while (on_date d) page1),
      EFetch (page_url s 0 100)
        :: if forallb (on_date d) page1
           then [EFetch (page_url s 100 100); EPrint "No more fetch"]
           else [])).
Proof.
  intros Hs. repeat split.
  - intros d k st url page len Hpos Hst Hne.
    pose proof (body_page category parse res_per_iter d s Hs k st Hst Hne) as Hb.
    fold url page len in Hb.
    eexists _, _. split; [exact Hb|]. cbn [n_start n_left].
    repeat split.
    + now intros ->.
    + now intros ->.
    + rewrite while_loop_enter by exact Hpos. fold url page len. now rewrite Hb.
  - intros d k st. apply while_loop_exit.
  - intros d k st url Hpos Hst Hen.
    rewrite while_loop_enter by exact Hpos.
    now rewrite (body_empty_page _ _ _ _ _ Hs).
  - intros today submitted_date page1 -> Hdate Hp1 Hlen Hp2 d.
    unfold _query_daily_paper. rewrite Hdate. fold d.
    rewrite while_loop_enter by (cbn; lia).
    rewrite (body_page _ _ _ _ _ Hs); cbn [n_start n_left articles];
      rewrite Hp1; cbn [status entries];
      [| reflexivity | intros ->; discriminate Hlen].
    rewrite Hlen. destruct (forallb (on_date d) page1).
    + change (200 - Z.of_nat 100) with 100. change (0 + Z.of_nat 100) with 100.
      change (100 >? 100) with false.
      rewrite while_loop_enter by (cbn; lia).
      rewrite (body_empty_page _ _ _ _ _ Hs); cbn [n_start n_left articles];
        [reflexivity | now rewrite Hp2 ..].
    + rewrite while_loop_exit by (cbn; lia). reflexivity.
Qed.

Lemma C2_witness :
  _query_daily_paper (AStr "cs.CV") monday_2026_11_02 feed_100_then_empty 0 200 100 =
  (Ok (repeat entry_oct30 100),
   [EFetch (page_url (mkSearch "cat:cs.CV" "") 0 100);
    EFetch (page_url (mkSearch "cat:cs.CV" "") 100 100);
    EPrint "No more fetch"]).
Proof.
  apply (proj2 (proj2 (proj2
           (C2_counts_follow_the_page (AStr "cs.CV") feed_100_then_empty 100
              (mkSearch "cat:cs.CV" "") eq_refl)))
           monday_2026_11_02 (Date.mk 739919) (repeat entry_oct30 100));
    reflexivity.
Defined.

(* --------------------------------------------------------------------- *)
(** ** Building a search *)

Lemma join_cons_nonempty sep piece pieces :
  piece <> ""%string -> join sep (piece :: pieces) <> ""%string.
Proof.
  unfold join. cbn. destruct piece as [|c piece]; [congruence|].
  intros _. destruct pieces; discriminate.
Qed.

Lemma split_nonempty sep s : split sep s <> [].
Proof.
  destruct s as [|c t]; cbn; [discriminate|].
  destruct (Ascii.eqb c sep); [discriminate|].
  destruct (split sep t); discriminate.
Qed.

(** Joining the pieces again with the separator gives the text back. *)
Lemma join_split sep s : join (String sep "") (split sep s) = s.
Proof.
  unfold join. induction s as [|c t IH]; [reflexivity|].
  cbn [split]. destruct (Ascii.eqb_spec c sep) as [->|Hc].
  - pose proof (split_nonempty sep t) as Hne.
    cbn [concat]. destruct (split sep t) as [|p ps]; [contradiction|].
    cbn. now rewrite <- IH.
  - pose proof (split_nonempty sep t) as Hne.
    destruct (split sep t) as [|p ps]; [contradiction|].
    rewrite <- IH. destruct ps; reflexivity.
Qed.

(** No piece contains the separator. *)
Lemma split_pieces sep s :
  Forall (fun piece => str_in (String sep "") piece = false) (split sep s).
Proof.
  induction s as [|c t IH]; cbn [split].
  - constructor; [reflexivity | constructor].
  - destruct (Ascii.eqb_spec c sep) as [->|Hc].
    + constructor; [reflexivity | exact IH].
    + destruct (split sep t) as [|p ps]; [constructor; [|constructor]|].
      * cbn. destruct (ascii_dec sep c); [congruence | reflexivity].
      * inversion IH as [|? ? Hp Hps]; subst. constructor; [|exact Hps].
        cbn. cbn in Hp. rewrite Hp.
        destruct (ascii_dec sep c); [congruence|].
        destruct p; reflexivity.
Qed.

(** The text that [FromSubject] hands to the constructor starts with
    [all:], so it is never taken for a category. *)
Lemma subject_search_prefix subject :
  exists rest,
    join "+AND+" (map (fun p => "all:" ++ p)%string (split " " subject))
    = ("all:" ++ rest)%string.
Proof.
  pose proof (split_nonempty " " subject) as Hne.
  destruct (split " " subject) as [|p ps]; [contradiction|].
  unfold join. cbn [map concat]. destruct (map _ ps).
  - now exists p.
  - eexists. cbn. reflexivity.
Qed.

Lemma all_prefix_not_category rest : _is_category ("all:" ++ rest) = false.
Proof. rewrite _is_category_run. reflexivity. Qed.

Lemma ti_prefix_not_category rest : _is_category ("ti:" ++ rest) = false.
Proof. rewrite _is_category_run. reflexivity. Qed.

(** A nonempty text that is not a category puts exactly one field. *)
Lemma Search_init_text c text :
  _is_category (String c text) = false ->
  exists s, Search_init (AStr (String c text)) = Ok s /\ exactly_one_populated s.
Proof.
  intros Hc. cbn [Search_init]. rewrite Hc.
  destruct (_is_paper_id (String c text)); eexists; (split; [reflexivity|]).
  - right. split; [reflexivity | discriminate].
  - left. split; [discriminate | reflexivity].
Qed.

(** C10: a single string that matches the category pattern with a match
    of more than four characters (its leading run of letters, dots and
    hyphens) and also contains a [digits.digits] part is built as a
    category: the first test of the constructor wins. *)
Theorem C10_category_before_paper_id (token txt ids : string) :
  Re.search category_pattern token = Some txt ->
  (4 < String.length txt)%nat ->
  Re.search paper_id_pattern token = Some ids ->
  txt = leading_run Re.cat_char token /\
  _is_category token = true /\
  _is_paper_id token = true /\
  Search_init (AStr token) = Ok (mkSearch ("cat:" ++ token) "").
Proof.
  intros Hcat Hlen Hid.
  assert (Hc : _is_category token = true).
  { unfold _is_category. rewrite Hcat. now apply Nat.ltb_lt. }
  repeat split.
  - rewrite search_category in Hcat. unfold run_of_at_least in Hcat.
    destruct (2 <=? _)%nat; congruence.
  - exact Hc.
  - unfold _is_paper_id. now rewrite Hid.
  - cbn [Search_init]. now rewrite Hc.
Qed.

Lemma C10_witness :
  "stat.ML" = leading_run Re.cat_char "stat.ML 2101.01234" /\
  _is_category "stat.ML 2101.01234" = true /\
  _is_paper_id "stat.ML 2101.01234" = true /\
  Search_init (AStr "stat.ML 2101.01234")
  = Ok (mkSearch "cat:stat.ML 2101.01234" "").
Proof.
  apply (C10_category_before_paper_id "stat.ML 2101.01234" "stat.ML" "2101.01234").
  - reflexivity.
  - cbn. lia.
  - reflexivity.
Defined.

(** C4, as stated, fails on a list of one free-text token: the
    constructor raises although only one token was given. *)
Lemma C4_counterexample :
  free_text "abc" /\
  Search_init (AList ["abc"]) = Raise (RuntimeError (Unrecognized_list_input ["abc"])) /\
  ~ ((exists e, Search_init (AList ["abc"]) = Raise e) <->
     (forallb _is_category ["abc"] = false /\
      forallb _is_paper_id ["abc"] = false) /\
     (1 < List.length ["abc"])%nat).
Proof.
  split; [split; reflexivity|]. split; [reflexivity|].
  intros [H _]. destruct H as [_ Hlen]; [eexists; reflexivity|].
  cbn in Hlen. lia.
Qed.

(** C4 (amended): the constructor on a list raises exactly when the
    tokens are neither all categories nor all paper identifiers,
    however many they are, and the exception is the [RuntimeError] for
    an unrecognized list; a free-text token is taken as a raw query
    when it is given as a string, and is refused when it is given as a
    list of one. *)
Theorem C4_list_raises_iff_not_uniform (tokens : list string) (token : string) :
  ((exists e, Search_init (AList tokens) = Raise e) <->
   (forallb _is_category tokens = false /\ forallb _is_paper_id tokens = false)) /\
  (forall e, Search_init (AList tokens) = Raise e ->
             e = RuntimeError (Unrecognized_list_input tokens)) /\
  (free_text token ->
   Search_init (AStr token) = Ok (mkSearch token "") /\
   Search_init (AList [token]) = Raise (RuntimeError (Unrecognized_list_input [token]))).
Proof.
  cbn [Search_init]. split; [split|split].
  - intros [e He].
    destruct (forallb _is_category tokens); [discriminate|].
    destruct (forallb _is_paper_id tokens); [discriminate|]. now split.
  - intros [-> ->]. eexists; reflexivity.
  - intros e He.
    destruct (forallb _is_category tokens); [discriminate|].
    destruct (forallb _is_paper_id tokens); congruence.
  - intros [Hc Hp]. cbn [forallb]. now rewrite Hc, Hp.
Qed.

Lemma C4_witness :
  Search_init (AStr "abc") = Ok (mkSearch "abc" "") /\
  Search_init (AList ["abc"]) = Raise (RuntimeError (Unrecognized_list_input ["abc"])).
Proof.
  apply (proj2 (proj2 (C4_list_raises_iff_not_uniform ["cs.CV"; "2101.00001"] "abc"))).
  split; reflexivity.
Defined.

Example mixed_list_raises :
  Search_init (AList ["cs.CV"; "2101.00001"])
  = Raise (RuntimeError (Unrecognized_list_input ["cs.CV"; "2101.00001"])).
Proof. reflexivity. Qed.

(** C5, as stated, fails: the separator of the built query is not
    [" OR "]. *)
Lemma C5_counterexample :
  forallb _is_category ["cs.CV"; "cs.AI"] = true /\
  exists s,
    Search_init (AList ["cs.CV"; "cs.AI"]) = Ok s /\
    search_query s <> "cat:cs.CV OR cat:cs.AI"%string /\
    search_query s <> join " OR " (map (fun c => "cat:" ++ c)%string ["cs.CV"; "cs.AI"]).
Proof.
  split; [reflexivity|]. eexists. split; [reflexivity|]. split; discriminate.
Qed.

(** C5 (amended): for a list of category tokens (two or more, and also
    fewer) the built search has the tokens, each after [cat:], joined in
    the given order with the separator [+OR+], and an empty [id_list];
    for [cs.CV] and [cs.AI] the query is [cat:cs.CV+OR+cat:cs.AI]. *)
Theorem C5_categories_or_joined (tokens : list string) :
  (forallb _is_category tokens = true ->
   Search_init (AList tokens) =
   Ok (mkSearch (join "+OR+" (map (fun c => "cat:" ++ c)%string tokens)) "")) /\
  (forall t1 t2 rest,
     forallb _is_category (t1 :: t2 :: rest) = true ->
     exists s,
       Search_init (AList (t1 :: t2 :: rest)) = Ok s /\ id_list s = ""%string /\
       search_query s =
       ("cat:" ++ t1 ++ "+OR+" ++
        join "+OR+" (map (fun c => "cat:" ++ c) (t2 :: rest)))%string) /\
  Search_init (AList ["cs.CV"; "cs.AI"]) = Ok (mkSearch "cat:cs.CV+OR+cat:cs.AI" "").
Proof.
  repeat split.
  - intros H. cbn [Search_init]. now rewrite H.
  - intros t1 t2 rest H. cbn [Search_init]. rewrite H.
    eexists. repeat split.
Qed.

Lemma C5_witness :
  Search_init (AList ["cs.CV"; "cs.AI"; "stat.ML"]) =
  Ok (mkSearch "cat:cs.CV+OR+cat:cs.AI+OR+cat:stat.ML" "").
Proof.
  apply (proj1 (C5_categories_or_joined ["cs.CV"; "cs.AI"; "stat.ML"])).
  reflexivity.
Defined.

(* --------------------------------------------------------------------- *)
(** ** The request string *)

Lemma str_mem_In s l : str_mem s l = true <-> In s l.
Proof.
  unfold str_mem. rewrite existsb_exists. split.
  - intros (x & Hx & He). apply String.eqb_eq in He. now subst.
  - intros H. exists s. split; [exact H | apply String.eqb_refl].
Qed.

Lemma str_mem_not_In s l : str_mem s l = false <-> ~ In s l.
Proof.
  rewrite <- str_mem_In. destruct (str_mem s l); split; congruence.
Qed.

(** C6, as stated, fails: [submitted], one of the values the statement
    lists, is refused, and [submittedDate], which it does not list, is
    accepted. *)
Lemma C6_counterexample :
  (In "submitted"%string spec_sort_by_values /\
   In "descending"%string sort_order_values /\
   Finalize (mkSearch "cat:cs.CV" "") 0 25 "submitted" "descending"
   = Raise (RuntimeError (Unknown_sorting_type "submitted"))) /\
  (~ In "submittedDate"%string spec_sort_by_values /\
   exists url,
     Finalize (mkSearch "cat:cs.CV" "") 0 25 "submittedDate" "descending" = Ok url).
Proof.
  split; [repeat split; cbn; auto|].
  split; [|eexists; reflexivity].
  cbn. intros [H|[H|[H|[]]]]; discriminate H.
Qed.

(** C6 (amended): [Finalize] raises (a [RuntimeError]) exactly when
    [sort_by] is not one of [relevance], [lastUpdatedDate],
    [submittedDate] or [sort_order] is not one of [ascending],
    [descending]; otherwise it returns the base address followed by the
    six fields, empty or not, in the order search_query, id_list, start,
    max_results, sortBy, sortOrder, with [sort_by] and [sort_order] as
    they were given. *)
Theorem C6_Finalize (self : Search) (start max_results : Z)
    (sort_by sort_order : string) :
  ((exists e, Finalize self start max_results sort_by sort_order = Raise e) <->
   (~ In sort_by ["relevance"; "lastUpdatedDate"; "submittedDate"]%string \/
    ~ In sort_order ["ascending"; "descending"]%string)) /\
  (forall e, Finalize self start max_results sort_by sort_order = Raise e ->
             exists msg, e = RuntimeError msg) /\
  (In sort_by ["relevance"; "lastUpdatedDate"; "submittedDate"]%string ->
   In sort_order ["ascending"; "descending"]%string ->
   Finalize self start max_results sort_by sort_order =
   Ok ("http://export.arxiv.org/api/query?" ++
       "search_query=" ++ search_query self ++
       "&id_list=" ++ id_list self ++
       "&start=" ++ str_of_int start ++
       "&max_results=" ++ str_of_int max_results ++
       "&sortBy=" ++ sort_by ++
       "&sortOrder=" ++ sort_order)%string).
Proof.
  change ["relevance"; "lastUpdatedDate"; "submittedDate"]%string with sort_by_values.
  change ["ascending"; "descending"]%string with sort_order_values.
  unfold Finalize.
  destruct (str_mem sort_by sort_by_values) eqn:Hby; cbn [negb];
    [apply str_mem_In in Hby | apply str_mem_not_In in Hby].
  - destruct (str_mem sort_order sort_order_values) eqn:Hord; cbn [negb];
      [apply str_mem_In in Hord | apply str_mem_not_In in Hord].
    + split; [split|split].
      * intros [e He]. discriminate He.
      * intros [H|H]; contradiction.
      * intros e He. discriminate He.
      * reflexivity.
    + split; [split|split].
      * now right.
      * eexists; reflexivity.
      * intros e [= <-]. eexists; reflexivity.
      * intros _ H. contradiction.
  - split; [split|split].
    + now left.
    + eexists; reflexivity.
    + intros e [= <-]. eexists; reflexivity.
    + intros H. contradiction.
Qed.

Lemma C6_witness :
  Finalize (mkSearch "cat:cs.CV" "") 0 25 "relevance" "ascending" =
  Ok "http://export.arxiv.org/api/query?search_query=cat:cs.CV&id_list=&start=0&max_results=25&sortBy=relevance&sortOrder=ascending".
Proof.
  apply (proj2 (proj2 (C6_Finalize (mkSearch "cat:cs.CV" "") 0 25 "relevance" "ascending")));
    cbn; auto.
Defined.

Example Finalize_bogus :
  Finalize (mkSearch "cat:cs.CV" "") 0 25 "bogus" "ascending"
  = Raise (RuntimeError (Unknown_sorting_type "bogus")) /\
  Finalize (mkSearch "cat:cs.CV" "") 0 25 "relevance" "up"
  = Raise (RuntimeError (Unknown_ordering "up")).
Proof. split; reflexivity. Qed.

(* --------------------------------------------------------------------- *)
(** ** The two fields of a built search *)

(** C8, as stated, fails: on the empty list, and on the empty string,
    the constructor succeeds and leaves both fields empty. *)
Lemma C8_counterexample :
  Search_init (AList []) = Ok (mkSearch "" "") /\
  ~ exactly_one_populated (mkSearch "" "") /\
  Search_init (AStr "") = Ok (mkSearch "" "").
Proof.
  split; [reflexivity|]. split; [|reflexivity].
  intros [[H _]|[_ H]]; now apply H.
Qed.

(** C8 (amended): a search the constructor builds never has both
    fields populated; both are empty exactly when the input is the empty
    list or the empty string, and otherwise exactly one is populated.
    [FromSubject] and [FromPaper] always succeed with exactly one field
    populated. *)
Theorem C8_fields_never_both (input : search_input) (s : Search) :
  (Search_init input = Ok s ->
   ~ (populated (search_query s) /\ populated (id_list s)) /\
   ((search_query s = ""%string /\ id_list s = ""%string) <->
    (input = AList [] \/ input = AStr "")) /\
   (input <> AList [] -> input <> AStr "" -> exactly_one_populated s)) /\
  (forall subject,
     exists s', FromSubject subject = Ok s' /\ exactly_one_populated s') /\
  (forall title author,
     exists s', FromPaper title author = Ok s' /\ exactly_one_populated s').
Proof.
  split; [|split].
  - destruct input as [tokens|token]; cbn [Search_init].
    + destruct (forallb _is_category tokens) eqn:Hc.
      * intros [= <-]. cbn [search_query id_list]. unfold exactly_one_populated.
        cbn [search_query id_list].
        destruct tokens as [|t tokens].
        -- split; [intros [_ H]; now apply H|].
           split; [split; auto|]. intros H; now contradiction H.
        -- assert (Hq : join "+OR+" (map (fun c => ("cat:" ++ c)%string) (t :: tokens))
                        <> ""%string) by (apply join_cons_nonempty; discriminate).
           split; [intros [_ H]; now apply H|].
           split; [split; [intros [H _]; contradiction | intros [H|H]; discriminate H]|].
           intros _ _. left. now split.
      * destruct (forallb _is_paper_id tokens) eqn:Hp; [|discriminate].
        intros [= <-]. unfold exactly_one_populated. cbn [search_query id_list].
        destruct tokens as [|t tokens]; [discriminate Hc|].
        cbn [forallb] in Hp. apply andb_prop in Hp as [Ht _].
        assert (Hq : join "," (t :: tokens) <> ""%string)
          by (apply join_cons_nonempty; now apply _is_paper_id_nonempty).
        split; [intros [H _]; now apply H|].
        split; [split; [intros [_ H]; contradiction | intros [H|H]; discriminate H]|].
        intros _ _. right. now split.
    + destruct (_is_category token) eqn:Hc; [|destruct (_is_paper_id token) eqn:Hp].
      * intros [= <-]. unfold exactly_one_populated. cbn [search_query id_list].
        split; [intros [_ H]; now apply H|].
        split; [split; [intros [H _]; discriminate H | intros [H|[= ->]]; discriminate]|].
        intros _ _. left. split; [discriminate | reflexivity].
      * intros [= <-]. unfold exactly_one_populated. cbn [search_query id_list].
        pose proof (_is_paper_id_nonempty token Hp) as Hne.
        split; [intros [H _]; now apply H|].
        split; [split; [intros [_ H]; contradiction | intros [H|[= ->]]; [discriminate | now contradiction Hne]]|].
        intros _ _. right. now split.
      * intros [= <-]. unfold exactly_one_populated. cbn [search_query id_list].
        split; [intros [_ H]; now apply H|].
        split; [split; [intros [-> _]; now right | intros [H|[= ->]]; [discriminate | now split]]|].
        intros _ Hne. left. split; [|reflexivity]. intros ->. now apply Hne.
  - intros subject. unfold FromSubject.
    destruct (subject_search_prefix subject) as [rest ->].
    apply Search_init_text, all_prefix_not_category.
  - intros title author. unfold FromPaper.
    destruct author as [a|]; apply (Search_init_text "t"), ti_prefix_not_category.
Qed.

Lemma C8_witness :
  ~ (populated (search_query (mkSearch "" "2101.00001,2102.00002")) /\
     populated (id_list (mkSearch "" "2101.00001,2102.00002"))) /\
  ((search_query (mkSearch "" "2101.00001,2102.00002") = ""%string /\
    id_list (mkSearch "" "2101.00001,2102.00002") = ""%string) <->
   (AList ["2101.00001"; "2102.00002"] = AList [] \/
    AList ["2101.00001"; "2102.00002"] = AStr "")) /\
  (AList ["2101.00001"; "2102.00002"] <> AList [] ->
   AList ["2101.00001"; "2102.00002"] <> AStr "" ->
   exactly_one_populated (mkSearch "" "2101.00001,2102.00002")).
Proof.
  apply (proj1 (C8_fields_never_both (AList ["2101.00001"; "2102.00002"])
                  (mkSearch "" "2101.00001,2102.00002"))).
  reflexivity.
Defined.

(* --------------------------------------------------------------------- *)
(** ** [FromSubject] *)

(** C9, as stated, fails: a tab is white space and does not cut the
    subject; and a subject with a [digits.digits] word is put in
    [id_list], [search_query] staying empty. *)
Lemma C9_counterexample :
  (spec_FromSubject ("deep" ++ String "009" "learning")
   = mkSearch "all:deep+AND+all:learning" "" /\
   FromSubject ("deep" ++ String "009" "learning")
   = Ok (mkSearch ("all:deep" ++ String "009" "learning") "") /\
   FromSubject ("deep" ++ String "009" "learning")
   <> Ok (spec_FromSubject ("deep" ++ String "009" "learning"))) /\
  (spec_FromSubject "GPT 3.5" = mkSearch "all:GPT+AND+all:3.5" "" /\
   FromSubject "GPT 3.5" = Ok (mkSearch "" "all:GPT+AND+all:3.5") /\
   FromSubject "GPT 3.5" <> Ok (spec_FromSubject "GPT 3.5")).
Proof.
  repeat split; try reflexivity; discriminate.
Qed.

(** C9 (amended): [FromSubject] cuts the subject at every space
    character (the pieces hold no space, and joined with a space they
    give the subject back), and, when the text [all:<piece>] joined with
    [+AND+] holds no [digits.digits] part, that text is the
    [search_query] of the built search and [id_list] is empty. *)
Theorem C9_FromSubject (subject : string) :
  let pieces := split " " subject in
  let search := join "+AND+" (map (fun p => "all:" ++ p)%string pieces) in
  join " " pieces = subject /\
  Forall (fun piece => str_in " " piece = false) pieces /\
  (_is_paper_id search = false ->
   FromSubject subject = Ok (mkSearch search "")).
Proof.
  intros pieces search. split; [apply join_split|].
  split; [apply split_pieces|].
  intros Hid. unfold FromSubject. fold pieces search. cbn [Search_init].
  rewrite Hid. destruct (subject_search_prefix subject) as [rest Hrest].
  fold pieces search in Hrest. rewrite Hrest at 1.
  now rewrite all_prefix_not_category.
Qed.

Lemma C9_witness :
  FromSubject "graph neural  networks"
  = Ok (mkSearch "all:graph+AND+all:neural+AND+all:+AND+all:networks" "").
Proof.
  apply (proj2 (proj2 (C9_FromSubject "graph neural  networks"))).
  reflexivity.
Defined.

(* ===================================================================== *)
(** * Further properties of the code *)

(* --------------------------------------------------------------------- *)
(** ** What the two classifiers accept *)

Lemma dot_not_digit c : Re.dot c = true -> Re.digit c = false.
Proof. unfold Re.dot. intros ->%Ascii.eqb_eq. reflexivity. Qed.

Lemma paper_id_at_head bos c1 c2 c3 rest :
  Re.digit c1 = true -> Re.dot c2 = true -> Re.digit c3 = true ->
  exists txt,
    Re.match_here paper_id_pattern bos (String c1 (String c2 (String c3 rest)))
    = Some txt.
Proof.
  intros H1 H2 H3. unfold paper_id_pattern.
  rewrite plus_cons, H1, plus_cons, (dot_not_digit c2 H2).
  cbn [Re.match_here]. rewrite H2, H3.
  match goal with
  | |- context [match ?x with Some _ => _ | None => _ end] => destruct x
  end; eexists; reflexivity.
Qed.

Lemma paper_id_match_has_window s : forall bos txt,
  Re.match_here paper_id_pattern bos s = Some txt -> digit_dot_digit s = true.
Proof.
  unfold paper_id_pattern.
  induction s as [|c t IH]; intros bos txt H; [discriminate H|].
  rewrite plus_cons in H. cbn [digit_dot_digit].
  destruct (Re.digit c) eqn:Hc; [|discriminate H].
  destruct (Re.match_here (Re.Plus Re.digit :: _) false t) as [txt'|] eqn:Ht.
  - rewrite (IH false txt' Ht). apply orb_true_r.
  - destruct t as [|c2 [|c3 t']]; cbn in H; try discriminate H.
    + destruct (Re.dot c2); discriminate H.
    + destruct (Re.dot c2) eqn:H2; [|discriminate H].
      destruct (Re.digit c3) eqn:H3; [reflexivity|discriminate H].
Qed.

Lemma search_paper_id s : forall bos,
  (exists txt, Re.search_from paper_id_pattern bos s = Some txt) <->
  digit_dot_digit s = true.
Proof.
  induction s as [|c t IH]; intros bos.
  - split; [intros [txt H]; discriminate H | discriminate].
  - cbn [Re.search_from digit_dot_digit]. split.
    + intros [txt H].
      destruct (Re.match_here paper_id_pattern bos (String c t)) as [m|] eqn:Hm.
      * apply (paper_id_match_has_window _ _ _ Hm).
      * apply orb_true_iff. right. apply (IH false). now exists txt.
    + intros [Hw|Ht]%orb_true_iff.
      * destruct t as [|c2 [|c3 rest]]; try discriminate Hw.
        apply andb_prop in Hw as [[H1 H2]%andb_prop H3].
        destruct (paper_id_at_head bos c c2 c3 rest H1 H2 H3) as [m ->].
        now exists m.
      * destruct (Re.match_here paper_id_pattern bos (String c t)) as [m|];
          [now exists m | now apply (IH false)].
Qed.

Lemma _is_paper_id_window s : _is_paper_id s = digit_dot_digit s.
Proof.
  unfold _is_paper_id, Re.search.
  pose proof (search_paper_id s true) as [H1 H2].
  destruct (Re.search_from paper_id_pattern true s) as [txt|].
  - symmetry. apply H1. now exists txt.
  - destruct (digit_dot_digit s); [|reflexivity].
    destruct (H2 eq_refl) as [txt H]. discriminate H.
Qed.

Lemma digit_dot_digit_app_intro pre c1 c3 post :
  Re.digit c1 = true -> Re.digit c3 = true ->
  digit_dot_digit (pre ++ String c1 (String "." (String c3 post))) = true.
Proof.
  intros H1 H3. induction pre as [|c pre IH].
  - cbn [append digit_dot_digit]. now rewrite H1, H3.
  - cbn [append digit_dot_digit]. rewrite IH. apply orb_true_r.
Qed.

Lemma digit_dot_digit_split s :
  digit_dot_digit s = true ->
  exists pre c1 c3 post,
    s = (pre ++ String c1 (String "." (String c3 post)))%string /\
    Re.digit c1 = true /\ Re.digit c3 = true.
Proof.
  induction s as [|c t IH]; [discriminate|].
  cbn [digit_dot_digit]. intros [Hw|Ht]%orb_true_iff.
  - destruct t as [|c2 [|c3 rest]]; try discriminate Hw.
    apply andb_prop in Hw as [[H1 H2]%andb_prop H3].
    apply Ascii.eqb_eq in H2. subst c2.
    now exists ""%string, c, c3, rest.
  - destruct (IH Ht) as (pre & c1 & c3 & post & -> & H1 & H3).
    now exists (String c pre), c1, c3, post.
Qed.

(** X1: a text is taken for a paper identifier exactly when a digit, a
    dot and a digit follow each other somewhere in it. *)
Theorem X1_paper_id_iff_digit_dot_digit (entry : string) :
  _is_paper_id entry = true <->
  exists pre c1 c3 post,
    entry = (pre ++ String c1 (String "." (String c3 post)))%string /\
    Re.digit c1 = true /\ Re.digit c3 = true.
Proof.
  rewrite _is_paper_id_window. split.
  - apply digit_dot_digit_split.
  - intros (pre & c1 & c3 & post & -> & H1 & H3).
    now apply digit_dot_digit_app_intro.
Qed.

(** X2: a text is taken for a category exactly when its first five
    characters are letters, dots or hyphens; nothing after them
    counts. *)
Theorem X2_category_iff_first_five (entry : string) :
  _is_category entry = true <->
  exists c1 c2 c3 c4 c5 rest,
    entry = String c1 (String c2 (String c3 (String c4 (String c5 rest)))) /\
    forallb Re.cat_char [c1; c2; c3; c4; c5] = true.
Proof.
  rewrite _is_category_run. split.
  - destruct entry as [|c1 [|c2 [|c3 [|c4 [|c5 rest]]]]]; cbn [leading_run];
      repeat (match goal with
              | |- context [if Re.cat_char ?c then _ else _] =>
                  destruct (Re.cat_char c) eqn:?
              end; cbn [leading_run String.length]);
      try discriminate.
    intros _. exists c1, c2, c3, c4, c5, rest. split; [reflexivity|].
    cbn [forallb]. repeat (apply andb_true_intro; split); auto.
  - intros (c1 & c2 & c3 & c4 & c5 & rest & -> & H).
    cbn [forallb] in H.
    repeat (apply andb_prop in H as [? H]).
    cbn [leading_run].
    repeat match goal with Hc : Re.cat_char _ = true |- _ => rewrite Hc; clear Hc end.
    reflexivity.
Qed.

Lemma X1_witness :
  _is_paper_id "arXiv:2101.01234v2" = true.
Proof.
  apply (proj2 (X1_paper_id_iff_digit_dot_digit "arXiv:2101.01234v2")).
  exists "arXiv:210"%string, "1"%char, "0"%char, "1234v2"%string.
  repeat split.
Defined.

Lemma X2_witness :
  _is_category "hello world" = true.
Proof.
  apply (proj2 (X2_category_iff_first_five "hello world")).
  exists "h"%char, "e"%char, "l"%char, "l"%char, "o"%char, " world"%string.
  split; reflexivity.
Defined.

(* --------------------------------------------------------------------- *)
(** ** Where a digit, a dot and a digit can stand *)

Lemma plain_not_digit c : plain c = true -> Re.digit c = false.
Proof. unfold plain. now intros [H%negb_true_iff _]%andb_prop. Qed.

Lemma plain_not_dot c : plain c = true -> Re.dot c = false.
Proof. unfold plain. now intros [_ H%negb_true_iff]%andb_prop. Qed.

Lemma digit_dot_digit_cons c t :
  digit_dot_digit (String c t) = head_window (String c t) || digit_dot_digit t.
Proof. destruct t as [|c2 [|c3 r]]; reflexivity. Qed.

(** The test at the head of a text looks at three characters: a plain
    character after [a] hides what follows it. *)
Lemma head_window_cut c a g rest :
  plain g = true ->
  head_window (String c (a ++ String g rest)) = head_window (String c a).
Proof.
  intros Hg. destruct a as [|c2 [|c3 a']]; cbn [append head_window].
  - destruct rest; [reflexivity|].
    now rewrite (plain_not_dot g Hg), andb_false_r.
  - now rewrite (plain_not_digit g Hg), andb_false_r.
  - reflexivity.
Qed.

Lemma digit_dot_digit_plain_head g rest :
  plain g = true -> digit_dot_digit (String g rest) = digit_dot_digit rest.
Proof.
  intros Hg. cbn [digit_dot_digit].
  rewrite (plain_not_digit g Hg). destruct rest as [|c2 [|c3 r]]; reflexivity.
Qed.

Lemma digit_dot_digit_plain_prefix glue rest :
  forallb plain (list_ascii_of_string glue) = true ->
  digit_dot_digit (glue ++ rest) = digit_dot_digit rest.
Proof.
  induction glue as [|g glue IH]; [reflexivity|].
  cbn [list_ascii_of_string forallb append]. intros [Hg Hglue]%andb_prop.
  now rewrite digit_dot_digit_plain_head, IH.
Qed.

(** Two texts put together with plain characters between them have the
    three characters in a row exactly when one of the two has. *)
Lemma digit_dot_digit_glue a g glue b :
  plain g = true ->
  forallb plain (list_ascii_of_string glue) = true ->
  digit_dot_digit (a ++ String g glue ++ b) = digit_dot_digit a || digit_dot_digit b.
Proof.
  intros Hg Hglue. induction a as [|c a IH].
  - cbn [append]. rewrite digit_dot_digit_plain_head by exact Hg.
    now rewrite digit_dot_digit_plain_prefix.
  - change ((String c a ++ String g glue ++ b)%string)
      with (String c (a ++ String g (glue ++ b))).
    rewrite !digit_dot_digit_cons, head_window_cut by exact Hg.
    change (a ++ String g (glue ++ b))%string with (a ++ String g glue ++ b)%string.
    rewrite IH. now rewrite orb_assoc.
Qed.

Lemma digit_dot_digit_pieces s :
  digit_dot_digit s = existsb digit_dot_digit (split " " s).
Proof.
  induction s as [|c t IH]; [reflexivity|].
  cbn [split]. destruct (Ascii.eqb_spec c " ") as [->|Hc].
  - cbn [existsb]. rewrite <- IH. now apply digit_dot_digit_plain_head.
  - pose proof (join_split " " t) as Hjoin.
    pose proof (split_nonempty " " t) as Hne.
    destruct (split " " t) as [|p ps]; [contradiction|].
    cbn [existsb] in IH |- *. rewrite !digit_dot_digit_cons, IH.
    destruct ps as [|q ps'].
    + cbn in Hjoin. subst t. now rewrite orb_assoc.
    + unfold join in Hjoin. cbn [concat] in Hjoin. rewrite <- Hjoin.
      cbn [append]. rewrite head_window_cut by reflexivity.
      now rewrite orb_assoc.
Qed.

Lemma digit_dot_digit_all_joined pieces :
  digit_dot_digit (join "+AND+" (map (fun p => "all:" ++ p)%string pieces))
  = existsb digit_dot_digit pieces.
Proof.
  unfold join. induction pieces as [|p [|q pieces'] IH]; [reflexivity| |].
  - cbn [map concat existsb]. rewrite orb_false_r.
    now apply (digit_dot_digit_plain_prefix "all:").
  - cbn [existsb]. cbn [existsb map] in IH. rewrite <- IH.
    cbn [map concat].
    rewrite (digit_dot_digit_glue ("all:" ++ p) "+" "AND+") by reflexivity.
    now rewrite (digit_dot_digit_plain_prefix "all:").
Qed.

(** X5: [FromSubject] never raises; the text [all:<piece>] joined with
    [+AND+] is put in [id_list], and [search_query] left empty, exactly
    when the subject has a digit, a dot and a digit in a row; otherwise
    it is the [search_query]. *)
Theorem X5_FromSubject_field (subject : string) :
  let text := join "+AND+" (map (fun p => "all:" ++ p)%string (split " " subject)) in
  (_is_paper_id subject = true -> FromSubject subject = Ok (mkSearch "" text)) /\
  (_is_paper_id subject = false -> FromSubject subject = Ok (mkSearch text "")).
Proof.
  intros text.
  assert (Hcat : _is_category text = false).
  { destruct (subject_search_prefix subject) as [rest Hrest].
    fold text in Hrest. rewrite Hrest. apply all_prefix_not_category. }
  assert (Hid : _is_paper_id text = _is_paper_id subject).
  { unfold text. rewrite !_is_paper_id_window, digit_dot_digit_all_joined.
    symmetry. apply digit_dot_digit_pieces. }
  unfold FromSubject. fold text. cbn [Search_init]. rewrite Hcat, Hid.
  split; intros ->; reflexivity.
Qed.

Lemma X5_witness :
  FromSubject "YOLO v2.0 review"
  = Ok (mkSearch "" "all:YOLO+AND+all:v2.0+AND+all:review").
Proof.
  apply (proj1 (X5_FromSubject_field "YOLO v2.0 review")). reflexivity.
Defined.

(** X6: [FromPaper] never raises; its text, [ti:<title>] followed by
    [+AND+au:<author>] when an author is given, is put in [id_list]
    exactly when the title or the author has a digit, a dot and a digit
    in a row, and is the [search_query] otherwise. *)
Theorem X6_FromPaper_field (title : string) (author : option string) :
  let text :=
    match author with
    | Some a => (("ti:" ++ title) ++ "+AND+au:" ++ a)%string
    | None => ("ti:" ++ title)%string
    end in
  let looks_like_id :=
    _is_paper_id title ||
    match author with Some a => _is_paper_id a | None => false end in
  (looks_like_id = true -> FromPaper title author = Ok (mkSearch "" text)) /\
  (looks_like_id = false -> FromPaper title author = Ok (mkSearch text "")).
Proof.
  intros text looks_like_id.
  assert (Hcat : _is_category text = false).
  { unfold text. destruct author; apply ti_prefix_not_category. }
  assert (Hid : _is_paper_id text = looks_like_id).
  { unfold text, looks_like_id. rewrite !_is_paper_id_window.
    destruct author as [a|].
    - rewrite _is_paper_id_window.
      rewrite (digit_dot_digit_glue ("ti:" ++ title) "+" "AND+au:") by reflexivity.
      now rewrite (digit_dot_digit_plain_prefix "ti:").
    - rewrite orb_false_r. now apply (digit_dot_digit_plain_prefix "ti:"). }
  unfold FromPaper. fold text. cbn [Search_init]. rewrite Hcat, Hid.
  split; intros ->; reflexivity.
Qed.

Lemma X6_witness :
  FromPaper "Attention is all you need" (Some "Vaswani")
  = Ok (mkSearch "ti:Attention is all you need+AND+au:Vaswani" "").
Proof.
  apply (proj2 (X6_FromPaper_field "Attention is all you need" (Some "Vaswani"))).
  reflexivity.
Defined.

(* --------------------------------------------------------------------- *)
(** ** Lists of identifiers *)

Lemma str_in_char c s : str_in (String c "") s = has_char c s.
Proof.
  induction s as [|c' t IH]; [reflexivity|].
  cbn [str_in has_char String.prefix]. rewrite IH. f_equal.
  destruct (ascii_dec c c') as [->|Hne].
  - rewrite Ascii.eqb_refl. now destruct t.
  - symmetry. apply Ascii.eqb_neq. congruence.
Qed.

Lemma split_without_separator sep piece :
  has_char sep piece = false -> split sep piece = [piece].
Proof.
  induction piece as [|c t IH]; [reflexivity|].
  cbn [has_char split]. intros [Hc Ht]%orb_false_elim.
  rewrite Hc, (IH Ht). reflexivity.
Qed.

Lemma split_at_separator sep piece rest :
  has_char sep piece = false ->
  split sep (piece ++ String sep rest) = piece :: split sep rest.
Proof.
  induction piece as [|c t IH]; cbn [has_char append split].
  - now rewrite Ascii.eqb_refl.
  - intros [Hc Ht]%orb_false_elim. now rewrite Hc, (IH Ht).
Qed.

(** Cutting a joined text at the separator gives the pieces back, when
    no piece holds the separator. *)
Lemma split_join sep pieces :
  pieces <> [] ->
  Forall (fun piece => has_char sep piece = false) pieces ->
  split sep (join (String sep "") pieces) = pieces.
Proof.
  unfold join. induction pieces as [|p [|q pieces'] IH]; intros Hne Hall.
  - contradiction.
  - inversion Hall; subst. now apply split_without_separator.
  - inversion Hall as [|? ? Hp Hrest]; subst. cbn [concat].
    cbn [append]. rewrite split_at_separator by exact Hp.
    f_equal. apply IH; [discriminate | exact Hrest].
Qed.

(** X3: a list of paper identifiers that are not all categories builds
    a search with an empty [search_query] and the identifiers, joined
    with commas, in [id_list]; cutting [id_list] at the commas gives the
    identifiers back when none of them holds a comma. *)
Theorem X3_identifier_list (tokens : list string) :
  forallb _is_category tokens = false ->
  forallb _is_paper_id tokens = true ->
  Search_init (AList tokens) = Ok (mkSearch "" (join "," tokens)) /\
  (Forall (fun token => str_in "," token = false) tokens ->
   split "," (join "," tokens) = tokens).
Proof.
  intros Hcat Hid. split.
  - cbn [Search_init]. now rewrite Hcat, Hid.
  - intros Hall. apply split_join.
    + intros ->. discriminate Hcat.
    + eapply Forall_impl; [|exact Hall].
      intros token H. now rewrite <- str_in_char.
Qed.

Lemma X3_witness :
  Search_init (AList ["2101.00001"; "2102.00002"])
  = Ok (mkSearch "" "2101.00001,2102.00002") /\
  (Forall (fun token => str_in "," token = false) ["2101.00001"; "2102.00002"] ->
   split "," "2101.00001,2102.00002" = ["2101.00001"; "2102.00002"]).
Proof.
  apply (X3_identifier_list ["2101.00001"; "2102.00002"]); reflexivity.
Defined.

(* --------------------------------------------------------------------- *)
(** ** Whole runs of the daily fetch *)

Lemma Ok_inj {A : Type} (a b : A) : Ok a = Ok b -> a = b.
Proof. intros H. now injection H. Qed.

Lemma Next_inj st1 evs1 st2 evs2 :
  Next st1 evs1 = Next st2 evs2 -> st1 = st2 /\ evs1 = evs2.
Proof. intros H. now injection H. Qed.

Section Runs.

Variable category : search_input.
Variable parse : nat -> string -> FeedResult.
Variable res_per_iter : Z.
Variable d : string.

Local Abbreviation loop := (while_loop category parse res_per_iter d).
Local Abbreviation body := (loop_body category parse res_per_iter d).

(** The body of the loop, case by case. *)
Lemma loop_body_eq k st :
  body k st =
  match Search_init category with
  | Raise e => Throw e []
  | Ok s =>
      let url := page_url s (n_start st) res_per_iter in
      let page := entries (parse k url) in
      let len := Z.of_nat (List.length page) in
      if status_not_200 (parse k url) then
        Break st [EFetch url; EPrint (http_error_line (parse k url))]
      else
        match page with
        | [] => Break (mkState (articles st) (n_left st - 0) (n_start st + 0))
                      [EFetch url; EPrint "No more fetch"]
        | _ :: _ =>
            let n_left2 :=
              if forallb (on_date d) page then n_left st - len else 0 in
            Next (mkState (articles st ++ take_while (on_date d) page)
                          n_left2 (n_start st + len))
                 (EFetch url :: if n_left2 >? res_per_iter then [ESleep] else [])
        end
  end.
Proof.
  unfold loop_body. destruct (Search_init category) as [s|e]; [|reflexivity].
  cbn [bind]. rewrite Finalize_defaults. cbv zeta.
  destruct (status_not_200 _); [reflexivity|].
  destruct (entries _) as [|e page] eqn:Hp; [reflexivity|].
  rewrite scan_entries_spec. reflexivity.
Qed.

(** A turn that comes back to the loop test has lowered [n_left]. *)
Lemma body_Next_lt k st st' evs :
  0 < n_left st -> body k st = Next st' evs -> n_left st' < n_left st.
Proof.
  intros Hpos H.
  rewrite loop_body_eq in H. destruct (Search_init category); [|discriminate].
  cbv zeta in H. destruct (status_not_200 _); [discriminate|].
  destruct (entries _) as [|e page]; [discriminate|].
  injection H as <- _. cbn [n_left].
  match goal with |- (if ?b then _ else _) < _ => destruct b end; lia.
Qed.

(** Induction over the turns of the loop. *)
Lemma while_loop_turns (P : nat -> loop_state -> result loop_state * list event -> Prop) :
  (forall k st, n_left st <= 0 -> P k st (Ok st, [])) ->
  (forall k st e evs,
     0 < n_left st -> body k st = Throw e evs -> P k st (Raise e, evs)) ->
  (forall k st st' evs,
     0 < n_left st -> body k st = Break st' evs -> P k st (Ok st', evs)) ->
  (forall k st st' evs r evs',
     0 < n_left st -> body k st = Next st' evs ->
     loop (S k) st' = (r, evs') -> P (S k) st' (r, evs') ->
     P k st (r, evs ++ evs')) ->
  forall k st, P k st (loop k st).
Proof.
  intros Hexit Hthrow Hbreak Hnext.
  assert (H : forall n k st, (Z.to_nat (n_left st) < n)%nat -> P k st (loop k st)).
  { induction n as [|n IH]; intros k st Hn; [lia|].
    destruct (Z_le_gt_dec (n_left st) 0) as [Hle|Hgt].
    - rewrite while_loop_exit by exact Hle. now apply Hexit.
    - rewrite while_loop_enter by lia.
      destruct (body k st) as [st' evs|st' evs|e evs] eqn:Hb.
      + destruct (loop (S k) st') as [r evs'] eqn:Hl.
        apply Hnext with (st' := st'); [lia | exact Hb | exact Hl |].
        rewrite <- Hl. apply IH.
        assert (Hpos : 0 < n_left st) by lia.
        pose proof (body_Next_lt _ _ _ _ Hpos Hb). lia.
      + apply Hbreak; [lia | exact Hb].
      + apply Hthrow; [lia | exact Hb]. }
  intros k st. apply (H (S (Z.to_nat (n_left st)))). lia.
Qed.


(** The entries gathered are all of the date looked for. *)
Lemma while_loop_on_date k st st' evs :
  loop k st = (Ok st', evs) ->
  Forall (fun entry => on_date d entry = true) (articles st) ->
  Forall (fun entry => on_date d entry = true) (articles st').
Proof.
  revert st' evs.
  apply (while_loop_turns
           (fun k st out => forall st' evs, out = (Ok st', evs) ->
              Forall (fun entry => on_date d entry = true) (articles st) ->
              Forall (fun entry => on_date d entry = true) (articles st'))).
  - intros k0 st0 _ st' evs [= <- _] H. exact H.
  - intros k0 st0 e0 evs0 _ _ st' evs H. discriminate H.
  - intros k0 st0 st1 evs0 _ Hb st' evs [= <- _] H.
    rewrite loop_body_eq in Hb. destruct (Search_init category); [|discriminate].
    cbv zeta in Hb. destruct (status_not_200 _); [now injection Hb as <- _|].
    destruct (entries _); [now injection Hb as <- _ | discriminate].
  - intros k0 st0 st1 evs0 r evs' _ Hb _ IH st' evs [= -> _] H.
    apply (IH st' evs' eq_refl).
    rewrite loop_body_eq in Hb. destruct (Search_init category); [|discriminate].
    cbv zeta in Hb. destruct (status_not_200 _); [discriminate|].
    destruct (entries _) as [|e page]; [discriminate|].
    injection Hb as <- _. cbn [articles].
    apply Forall_app. split; [exact H|].
    apply Forall_forall. intros x Hx.
    pose proof (take_while_all (on_date d) (e :: page)) as Hall.
    rewrite forallb_forall in Hall. now apply Hall.
Qed.

(** Every turn makes one request and lowers [n_left] by one at least. *)
Lemma while_loop_fetches k st :
  (count_fetches (snd (loop k st)) <= Z.to_nat (n_left st))%nat.
Proof.
  apply (while_loop_turns
           (fun k st out => (count_fetches (snd out) <= Z.to_nat (n_left st))%nat)).
  - intros k0 st0 _. cbn. lia.
  - intros k0 st0 e0 evs0 Hpos Hb.
    rewrite loop_body_eq in Hb. destruct (Search_init category).
    + cbv zeta in Hb. destruct (status_not_200 _); [discriminate|].
      destruct (entries _); discriminate.
    + injection Hb as _ <-. cbn. lia.
  - intros k0 st0 st1 evs0 Hpos Hb. cbn [snd].
    rewrite loop_body_eq in Hb. destruct (Search_init category); [|discriminate].
    cbv zeta in Hb. destruct (status_not_200 _);
      [injection Hb as _ <-; cbn; lia|].
    destruct (entries _); [injection Hb as _ <-; cbn; lia | discriminate].
  - intros k0 st0 st1 evs0 r evs' Hpos Hb _ IH. cbn [snd] in IH |- *.
    pose proof (body_Next_lt _ _ _ _ Hpos Hb) as Hlt.
    rewrite loop_body_eq in Hb. destruct (Search_init category); [|discriminate].
    cbv zeta in Hb. destruct (status_not_200 _); [discriminate|].
    destruct (entries _) as [|e page]; [discriminate|].
    injection Hb as _ <-.
    unfold count_fetches in *. cbn [app filter is_fetch List.length].
    rewrite filter_app, length_app.
    match goal with
    | |- context [if ?b then [ESleep] else []] => destruct b
    end; cbn [filter is_fetch List.length]; lia.
Qed.

Lemma take_while_shorter {A : Type} (p : A -> bool) (l : list A) :
  forallb p l = false -> (List.length (take_while p l) < List.length l)%nat.
Proof.
  induction l as [|x l IH]; cbn; [discriminate|].
  destruct (p x); cbn; [intros H; apply IH in H|]; lia.
Qed.

(** A pause is made only while more than a page and one entry are
    still asked for. *)
Lemma while_loop_sleep k st :
  In ESleep (snd (loop k st)) -> res_per_iter + 1 < n_left st.
Proof.
  apply (while_loop_turns
           (fun k st out => In ESleep (snd out) -> res_per_iter + 1 < n_left st)).
  - intros k0 st0 _ [].
  - intros k0 st0 e0 evs0 Hpos Hb. cbn [snd].
    rewrite loop_body_eq in Hb. destruct (Search_init category).
    + cbv zeta in Hb. destruct (status_not_200 _); [discriminate|].
      destruct (entries _); discriminate.
    + injection Hb as _ <-. intros [].
  - intros k0 st0 st1 evs0 Hpos Hb. cbn [snd].
    rewrite loop_body_eq in Hb. destruct (Search_init category); [|discriminate].
    cbv zeta in Hb. destruct (status_not_200 _).
    + injection Hb as _ <-. intros [H|[H|[]]]; discriminate H.
    + destruct (entries _); [|discriminate].
      injection Hb as _ <-. intros [H|[H|[]]]; discriminate H.
  - intros k0 st0 st1 evs0 r evs' Hpos Hb _ IH. cbn [snd] in IH |- *.
    pose proof (body_Next_lt _ _ _ _ Hpos Hb) as Hlt.
    rewrite loop_body_eq in Hb. destruct (Search_init category); [|discriminate].
    cbv zeta in Hb. destruct (status_not_200 _); [discriminate|].
    destruct (entries _) as [|e page]; [discriminate|].
    injection Hb as <- <-. cbn [n_left] in *.
    intros [H|H]%in_app_iff; [|apply IH in H; lia].
    destruct H as [H|H]; [discriminate H|].
    match type of H with
    | In _ (if ?b then _ else _) => destruct b eqn:Hgt
    end; [|destruct H].
    apply Z.gtb_lt in Hgt. lia.
Qed.

(** The pages of the feed are no longer than asked for. *)
Hypothesis pages_fit :
  forall k url, Z.of_nat (List.length (entries (parse k url))) <= res_per_iter.

Lemma while_loop_size k st st' evs :
  loop k st = (Ok st', evs) ->
  Z.of_nat (List.length (articles st')) <=
  Z.of_nat (List.length (articles st)) + Z.max (n_left st) 0
    + Z.max (res_per_iter - 1) 0.
Proof.
  revert st' evs.
  apply (while_loop_turns
           (fun k st out => forall st' evs, out = (Ok st', evs) ->
              Z.of_nat (List.length (articles st')) <=
              Z.of_nat (List.length (articles st)) + Z.max (n_left st) 0
                + Z.max (res_per_iter - 1) 0)).
  - intros k0 st0 _ st' evs [= <- _]. lia.
  - intros k0 st0 e0 evs0 _ _ st' evs H. discriminate H.
  - intros k0 st0 st1 evs0 _ Hb st' evs [= <- _].
    rewrite loop_body_eq in Hb. destruct (Search_init category); [|discriminate].
    cbv zeta in Hb. destruct (status_not_200 _); [injection Hb as <- _; lia|].
    destruct (entries _); [injection Hb as <- _; cbn [articles]; lia | discriminate].
  - intros k0 st0 st1 evs0 r evs' Hpos Hb Hloop IH st' evs [= -> _].
    specialize (IH st' evs' eq_refl).
    rewrite loop_body_eq in Hb.
    destruct (Search_init category) as [s|]; [|discriminate].
    cbv zeta in Hb. destruct (status_not_200 _); [discriminate|].
    pose proof (pages_fit k0 (page_url s (n_start st0) res_per_iter)) as Hfit.
    destruct (entries _) as [|e page] eqn:Hp; [discriminate|].
    destruct (forallb (on_date d) (e :: page)) eqn:Hall.
    + apply Next_inj in Hb as [<- _]. cbn [articles n_left] in *.
      rewrite (take_while_id _ _ Hall), length_app in *.
      destruct (Z_le_gt_dec (n_left st0 - Z.of_nat (List.length (e :: page))) 0)
        as [Hle|Hgt]; [|lia].
      rewrite while_loop_exit in Hloop by exact Hle.
      apply pair_equal_spec in Hloop as [<-%Ok_inj _]. cbn [articles].
      rewrite length_app. lia.
    + apply Next_inj in Hb as [<- _].
      rewrite while_loop_exit in Hloop by (cbn [n_left]; lia).
      apply pair_equal_spec in Hloop as [<-%Ok_inj _]. cbn [articles].
      rewrite length_app.
      pose proof (take_while_shorter _ _ Hall). lia.
Qed.

End Runs.

Lemma append_nonempty_r a b : b <> ""%string -> (a ++ b)%string <> ""%string.
Proof. destruct a; cbn; [auto | discriminate]. Qed.

Lemma strftime_ymd_nonempty day : Date.strftime_ymd day <> ""%string.
Proof.
  unfold Date.strftime_ymd. destruct (Date._ord2ymd _) as [[y m] dd].
  apply append_nonempty_r. discriminate.
Qed.

(** An entry of the date [d], for a nonempty [d], has a date. *)
Lemma on_date_has_date d entry :
  d <> ""%string -> on_date d entry = true ->
  exists date, entry_date entry = Some date /\ str_in d date = true.
Proof.
  unfold on_date, get_date. intros Hd H.
  destruct (entry_date entry) as [date|]; [now exists date|].
  destruct d; [contradiction | discriminate H].
Qed.

(** The run as a run of the loop. *)
Lemma _query_daily_paper_eq category today parse start max_results res_per_iter :
  _query_daily_paper category today parse start max_results res_per_iter =
  match target_date today with
  | Raise e => (Raise e, [])
  | Ok submitted_date =>
      let out :=
        while_loop category parse res_per_iter (Date.strftime_ymd submitted_date)
                   0%nat (mkState [] max_results start) in
      (st <- fst out ;; Ok (articles st), snd out)
  end.
Proof.
  unfold _query_daily_paper. destruct (target_date today); [|reflexivity].
  cbv zeta. now destruct (while_loop _ _ _ _ _ _).
Qed.




(** X8: every entry that [_query_daily_paper] returns has a date, and
    that date contains the day looked for. *)
Theorem X8_returned_entries_are_of_the_day
  (category : search_input) (today : Date.t) (parse : nat -> string -> FeedResult)
  (start max_results res_per_iter : Z) (found : list FeedEntry) (evs : list event) :
  _query_daily_paper category today parse start max_results res_per_iter
  = (Ok found, evs) ->
  exists submitted_date,
    target_date today = Ok submitted_date /\
    Forall (fun entry =>
              exists date,
                entry_date entry = Some date /\
                str_in (Date.strftime_ymd submitted_date) date = true) found.
Proof.
  rewrite _query_daily_paper_eq.
  destruct (target_date today) as [sd|e0]; [|discriminate].
  cbv zeta.
  destruct (while_loop _ _ _ _ _ _) as [[st|e1] evs1] eqn:Hl;
    cbn [fst snd bind]; [|discriminate].
  intros [= <- <-]. exists sd. split; [reflexivity|].
  apply while_loop_on_date in Hl; [|constructor].
  eapply Forall_impl; [|exact Hl].
  intros entry. apply on_date_has_date, strftime_ymd_nonempty.
Qed.

Lemma X8_witness :
  exists submitted_date,
    target_date monday_2026_11_02 = Ok submitted_date /\
    Forall (fun entry =>
              exists date,
                entry_date entry = Some date /\
                str_in (Date.strftime_ymd submitted_date) date = true)
           [entry_oct30; entry_oct30; entry_oct30].
Proof.
  apply (X8_returned_entries_are_of_the_day (AStr "cs.CV") monday_2026_11_02
           feed_sample 0 200 100 [entry_oct30; entry_oct30; entry_oct30]
           [EFetch (page_url (mkSearch "cat:cs.CV" "") 0 100)]).
  reflexivity.
Defined.

(** X9: a run makes at most [max_results] requests to the feed, and
    none when [max_results] is not positive. *)
Theorem X9_requests_bounded
  (category : search_input) (today : Date.t) (parse : nat -> string -> FeedResult)
  (start max_results res_per_iter : Z) :
  (count_fetches
     (snd (_query_daily_paper category today parse start max_results res_per_iter))
   <= Z.to_nat max_results)%nat.
Proof.
  rewrite _query_daily_paper_eq.
  destruct (target_date today) as [sd|e0]; [|cbn; lia].
  cbv zeta. cbn [snd].
  apply (while_loop_fetches category parse res_per_iter (Date.strftime_ymd sd)
           0%nat (mkState [] max_results start)).
Qed.

(** X10: when no page of the feed is longer than asked for, a run for
    at least one entry returns fewer than [max_results + res_per_iter]
    entries: [max_results] can be passed, by less than a page. *)
Theorem X10_result_size
  (category : search_input) (today : Date.t) (parse : nat -> string -> FeedResult)
  (start max_results res_per_iter : Z) (found : list FeedEntry) (evs : list event) :
  (forall k url, Z.of_nat (List.length (entries (parse k url))) <= res_per_iter) ->
  0 < max_results ->
  _query_daily_paper category today parse start max_results res_per_iter
  = (Ok found, evs) ->
  Z.of_nat (List.length found) <= max_results + Z.max (res_per_iter - 1) 0.
Proof.
  intros Hfit Hpos. rewrite _query_daily_paper_eq.
  destruct (target_date today) as [sd|e0]; [|discriminate].
  cbv zeta.
  destruct (while_loop _ _ _ _ _ _) as [[st|e1] evs1] eqn:Hl;
    cbn [fst snd bind]; [|discriminate].
  intros [= <- <-].
  apply (while_loop_size _ _ _ _ Hfit) in Hl. cbn [articles n_left List.length] in Hl.
  lia.
Qed.

Lemma X10_witness :
  Z.of_nat (List.length (repeat entry_oct30 100 ++ repeat entry_oct30 100))
  <= 101 + Z.max (100 - 1) 0.
Proof.
  apply (X10_result_size (AStr "cs.CV") monday_2026_11_02 feed_full_pages
           0 101 100 _
           [EFetch (page_url (mkSearch "cat:cs.CV" "") 0 100);
            EFetch (page_url (mkSearch "cat:cs.CV" "") 100 100)]).
  - intros [|[|k]] url; cbn; try rewrite repeat_length; lia.
  - reflexivity.
  - vm_compute. reflexivity.
Defined.

(** X11: the loop pauses only while more than [res_per_iter + 1]
    entries were asked for: a run with [max_results <= res_per_iter + 1]
    never sleeps. *)
Theorem X11_sleep_needs_more_than_a_page
  (category : search_input) (today : Date.t) (parse : nat -> string -> FeedResult)
  (start max_results res_per_iter : Z) :
  In ESleep
     (snd (_query_daily_paper category today parse start max_results res_per_iter)) ->
  res_per_iter + 1 < max_results.
Proof.
  rewrite _query_daily_paper_eq.
  destruct (target_date today) as [sd|e0]; [|intros []].
  cbv zeta. cbn [snd]. intros H.
  apply while_loop_sleep in H. exact H.
Qed.

Lemma X11_witness : 2 + 1 < 200.
Proof.
  apply (X11_sleep_needs_more_than_a_page (AList ["cs.CV"; "cs.AI"])
           monday_2026_11_02
           (fun k _ => match k with
                       | O => mkFeed (Some 200) [entry_oct30; entry_oct30]
                       | _ => mkFeed (Some 200) [entry_oct30; entry_oct29; entry_oct30]
                       end) 0 200 2).
  vm_compute. right. left. reflexivity.
Defined.

(* --------------------------------------------------------------------- *)
(** ** [Article]: the cleaning of the title and of the summary *)

Lemma length_append a b :
  String.length (a ++ b) = (String.length a + String.length b)%nat.
Proof. induction a as [|c a IH]; cbn; [reflexivity | now rewrite IH]. Qed.

Lemma has_char_append c a b :
  has_char c (a ++ b) = has_char c a || has_char c b.
Proof.
  induction a as [|c' a IH]; cbn; [reflexivity|].
  now rewrite IH, orb_assoc.
Qed.

Lemma prefix_length a b :
  String.prefix a b = true -> (String.length a <= String.length b)%nat.
Proof.
  revert b. induction a as [|c a IH]; intros b H; cbn; [lia|].
  destruct b as [|c' b]; [discriminate H|]. cbn in H.
  destruct (ascii_dec c c'); [|discriminate H].
  apply IH in H. cbn. lia.
Qed.

(** The replacement brings in only characters of [new]. *)
Lemma replace_from_keeps_out c old new s : forall skip,
  has_char c new = false -> has_char c s = false ->
  has_char c (replace_from old new skip s) = false.
Proof.
  induction s as [|c' t IH]; intros skip Hnew Hs; [reflexivity|].
  cbn [has_char] in Hs. apply orb_false_elim in Hs as [Hc Ht].
  cbn [replace_from]. destruct skip as [|k]; [|now apply IH].
  destruct (String.prefix old (String c' t)).
  - rewrite has_char_append, Hnew. now apply IH.
  - cbn [has_char]. rewrite Hc. now apply IH.
Qed.

(** Replacing a character takes it out. *)
Lemma replace_from_takes_out c new s :
  has_char c new = false ->
  has_char c (replace_from (String c "") new 0 s) = false.
Proof.
  intros Hnew. induction s as [|c' t IH]; [reflexivity|].
  cbn [replace_from String.prefix String.length Nat.sub].
  destruct (ascii_dec c c') as [<-|Hne].
  - replace (String.prefix "" t) with true by now destruct t.
    now rewrite has_char_append, Hnew.
  - cbn [has_char]. rewrite IH, orb_false_r.
    apply Ascii.eqb_neq. congruence.
Qed.

(** A replacement by a text that is not longer does not lengthen. *)
Lemma replace_from_length old new s : forall skip,
  old <> ""%string ->
  (String.length new <= String.length old)%nat ->
  (skip <= String.length s)%nat ->
  (String.length (replace_from old new skip s) + skip <= String.length s)%nat.
Proof.
  induction s as [|c t IH]; intros skip Hold Hnew Hskip;
    cbn [String.length] in Hskip |- *; [cbn; lia|].
  destruct skip as [|k]; cbn [replace_from].
  - destruct (String.prefix old (String c t)) eqn:Hp.
    + apply prefix_length in Hp. cbn [String.length] in Hp.
      assert (Hlen : String.length old <> 0%nat)
        by (destruct old; [congruence | discriminate]).
      rewrite length_append.
      assert (Hk : (String.length old - 1 <= String.length t)%nat) by lia.
      specialize (IH (String.length old - 1)%nat Hold Hnew Hk). lia.
    + assert (Hk : (0 <= String.length t)%nat) by lia.
      specialize (IH 0%nat Hold Hnew Hk). cbn [String.length]. lia.
  - assert (Hk : (k <= String.length t)%nat) by lia.
    specialize (IH k Hold Hnew Hk). lia.
Qed.

(** Without an occurrence nothing is replaced. *)
Lemma replace_from_absent old new s :
  str_in old s = false -> replace_from old new 0 s = s.
Proof.
  induction s as [|c t IH]; [reflexivity|].
  cbn [str_in replace_from]. intros [Hp Ht]%orb_false_elim.
  now rewrite Hp, IH.
Qed.

Lemma clean_no_line_feed text :
  str_in LF (replace "  " " " (replace LF " " text)) = false.
Proof.
  unfold LF. rewrite str_in_char. cbn [replace].
  apply replace_from_keeps_out; [reflexivity|].
  now apply replace_from_takes_out.
Qed.

Lemma clean_length text :
  (String.length (replace "  " " " (replace LF " " text)) <= String.length text)%nat.
Proof.
  unfold LF. cbn [replace].
  assert (H1 : (String.length (replace_from (String "010" "") " " 0 text) + 0
                 <= String.length text)%nat)
    by (apply replace_from_length; [discriminate | cbn; lia | lia]).
  assert (H2 : (String.length
                  (replace_from "  " " " 0 (replace_from (String "010" "") " " 0 text)) + 0
                <= String.length (replace_from (String "010" "") " " 0 text))%nat)
    by (apply replace_from_length; [discriminate | cbn; lia | lia]).
  lia.
Qed.

Lemma clean_fixed text :
  str_in LF text = false -> str_in "  " text = false ->
  replace "  " " " (replace LF " " text) = text.
Proof.
  intros Hlf Hsp. unfold LF in *. cbn [replace].
  rewrite (replace_from_absent _ _ _ Hlf). now apply replace_from_absent.
Qed.

(** X12: the title and the summary of an [Article] hold no line feed
    and are not longer than the texts given; the authors, the date and
    the link are the ones given. *)
Theorem X12_article_has_no_line_feed
  (title : string) (authors : list string) (summary date link : string) :
  let a := Article.init title authors summary date link in
  str_in LF (Article.title a) = false /\
  str_in LF (Article.summary a) = false /\
  (String.length (Article.title a) <= String.length title)%nat /\
  (String.length (Article.summary a) <= String.length summary)%nat /\
  Article.authors a = authors /\ Article.date a = date /\ Article.link a = link.
Proof.
  cbv zeta. cbn [Article.init Article.title Article.summary Article.authors
                 Article.date Article.link].
  repeat split; auto using clean_no_line_feed, clean_length.
Qed.

(** X13: a title, or a summary, without line feed and without two
    spaces in a row is kept as it is. *)
Theorem X13_article_keeps_clean_text
  (title : string) (authors : list string) (summary date link : string) :
  let a := Article.init title authors summary date link in
  (str_in LF title = false -> str_in "  " title = false ->
   Article.title a = title) /\
  (str_in LF summary = false -> str_in "  " summary = false ->
   Article.summary a = summary).
Proof.
  cbv zeta. cbn [Article.init Article.title Article.summary].
  split; apply clean_fixed.
Qed.

Lemma X13_witness :
  Article.title (Article.init "Diffusion models" ["A. Author"] "We study." "2026-10-30" "l")
  = "Diffusion models"%string.
Proof.
  apply (proj1 (X13_article_keeps_clean_text "Diffusion models" ["A. Author"%string]
                  "We study." "2026-10-30" "l")); reflexivity.
Defined.

(* --------------------------------------------------------------------- *)
(** ** [run_daily_search]: the choice of the papers *)




Lemma str_in_empty s : str_in "" s = true.
Proof. now destruct s. Qed.

Lemma lower_ascii_not_upper c : is_upper (lower_ascii c) = false.
Proof. destruct c as [[] [] [] [] [] [] [] []]; reflexivity. Qed.

Lemma lower_ascii_twice c : lower_ascii (lower_ascii c) = lower_ascii c.
Proof. destruct c as [[] [] [] [] [] [] [] []]; reflexivity. Qed.

Lemma lower_twice s : lower (lower s) = lower s.
Proof.
  induction s as [|c t IH]; cbn; [reflexivity|].
  now rewrite lower_ascii_twice, IH.
Qed.

Lemma lower_has_no_upper c s : is_upper c = true -> has_char c (lower s) = false.
Proof.
  intros Hc. induction s as [|c' t IH]; [reflexivity|].
  cbn [lower has_char]. rewrite IH, orb_false_r.
  apply Ascii.eqb_neq. intros Heq.
  pose proof (lower_ascii_not_upper c') as H. rewrite Heq in H. congruence.
Qed.

Lemma prefix_has_char c kw s :
  String.prefix kw s = true -> has_char c kw = true -> has_char c s = true.
Proof.
  revert s. induction kw as [|k kw IH]; intros s Hp Hc; [discriminate Hc|].
  destruct s as [|c' t]; [discriminate Hp|]. cbn in Hp.
  destruct (ascii_dec k c') as [<-|]; [|discriminate Hp].
  cbn [has_char] in Hc |- *. apply orb_true_iff in Hc as [Hk|Hc].
  - now rewrite Hk.
  - rewrite (IH t Hp Hc). apply orb_true_r.
Qed.

(** A text that contains [kw] contains every character of [kw]. *)
Lemma str_in_has_char c kw s :
  str_in kw s = true -> has_char c kw = true -> has_char c s = true.
Proof.
  intros Hin Hc. induction s as [|c' t IH].
  - cbn in Hin. rewrite orb_false_r in Hin. now apply (prefix_has_char c kw "").
  - cbn [str_in] in Hin. apply orb_true_iff in Hin as [Hp|Ht].
    + now apply (prefix_has_char c kw).
    + cbn [has_char]. rewrite (IH Ht). apply orb_true_r.
Qed.



Example run_daily_search_samples :
  fst (run_daily_search (AStr "cs.CV") monday_2026_11_02 feed_sample ["diffusion"%string])
  = Done [paper_oct30; paper_oct30; paper_oct30] /\
  fst (run_daily_search (AStr "cs.CV") monday_2026_11_02 feed_sample ["graph"%string])
  = Done [] /\
  fst (run_daily_search (AStr "cs.CV") monday_2026_11_02 feed_no_summary [])
  = Failed (AttributeError "summary").
Proof. repeat split; reflexivity. Qed.

(** X15: a keyword that holds a capital letter A-Z matches no title,
    the titles being compared in lower case: when every keyword holds
    one, no paper is kept. *)
Theorem X15_capital_keyword_never_matches
  (keywords : list string) (p : Article.t) :
  keywords <> [] ->
  Forall (fun kw => exists c, is_upper c = true /\ has_char c kw = true) keywords ->
  keep_paper keywords p = false.
Proof.
  intros Hne Hall. unfold keep_paper.
  destruct keywords as [|kw0 kws]; [contradiction|].
  cbn [List.length Nat.eqb orb].
  destruct (existsb _ (kw0 :: kws)) eqn:He; [|reflexivity].
  apply existsb_exists in He as (kw & Hin & Hkw).
  rewrite Forall_forall in Hall. destruct (Hall kw Hin) as (c & Hup & Hc).
  pose proof (str_in_has_char c kw _ Hkw Hc) as H.
  now rewrite lower_has_no_upper in H.
Qed.

Lemma X15_witness :
  keep_paper ["Diffusion"%string] paper_oct30 = false.
Proof.
  apply X15_capital_keyword_never_matches; [discriminate|].
  constructor; [|constructor].
  exists "D"%char. split; reflexivity.
Defined.

(* --------------------------------------------------------------------- *)
(** ** [bot.py]: adding keywords *)

(** What the loop over the new keywords appends. *)
Lemma add_keywords_appends new_kw : forall keywords,
  exists added,
    fold_left add_keyword new_kw keywords = keywords ++ added /\
    NoDup added /\
    Forall (fun kw => In kw (map lower new_kw) /\ ~ In kw keywords) added.
Proof.
  induction new_kw as [|kw rest IH]; intros keywords; cbn [fold_left].
  - exists []. rewrite app_nil_r. repeat constructor.
  - unfold add_keyword at 2.
    destruct (str_mem (lower kw) keywords) eqn:Hmem; cbn [negb].
    + destruct (IH keywords) as (added & Heq & Hnd & Hall).
      exists added. repeat split; [exact Heq | exact Hnd |].
      eapply Forall_impl; [|exact Hall].
      intros k [Hk Hnk]. split; [now right | exact Hnk].
    + apply str_mem_not_In in Hmem.
      destruct (IH (keywords ++ [lower kw])) as (added & Heq & Hnd & Hall).
      exists (lower kw :: added). rewrite Forall_forall in Hall.
      repeat split.
      * now rewrite Heq, <- app_assoc.
      * constructor; [|exact Hnd].
        intros Hin. destruct (Hall _ Hin) as [_ Hnot].
        apply Hnot. apply in_app_iff. right. now left.
      * constructor; [split; [now left | exact Hmem]|].
        apply Forall_forall. intros k Hk. destruct (Hall k Hk) as [Hin Hnot].
        split; [now right|]. intros H. apply Hnot, in_app_iff. now left.
Qed.

Lemma add_keywords_keeps new_kw keywords kw :
  In kw keywords -> In kw (fold_left add_keyword new_kw keywords).
Proof.
  intros H. destruct (add_keywords_appends new_kw keywords) as (added & -> & _).
  apply in_app_iff. now left.
Qed.

(** Every new keyword, in lower case, is in the list afterwards. *)
Lemma add_keywords_has_all new_kw : forall keywords kw,
  In kw new_kw -> In (lower kw) (fold_left add_keyword new_kw keywords).
Proof.
  induction new_kw as [|kw0 rest IH]; intros keywords kw Hin; [destruct Hin|].
  cbn [fold_left]. destruct Hin as [->|Hin]; [|now apply IH].
  apply add_keywords_keeps. unfold add_keyword.
  destruct (str_mem (lower kw) keywords) eqn:Hmem; cbn [negb].
  - now apply str_mem_In.
  - apply in_app_iff. right. now left.
Qed.

(** Keywords that are all there already change nothing. *)
Lemma add_keywords_known new_kw keywords :
  (forall kw, In kw new_kw -> In (lower kw) keywords) ->
  fold_left add_keyword new_kw keywords = keywords.
Proof.
  induction new_kw as [|kw rest IH]; intros H; [reflexivity|].
  cbn [fold_left]. unfold add_keyword at 2.
  replace (str_mem (lower kw) keywords) with true
    by (symmetry; apply str_mem_In, H; now left).
  cbn [negb]. apply IH. intros k Hk. apply H. now right.
Qed.

(** X16: [_add_keyords_callback] keeps the keywords it had, in their
    order, and appends new ones: each is appended once, is the lower
    case of one of the words of the arguments, is itself in lower case
    and was not in the list; afterwards the lower case of every word of
    the arguments is in the list.  The list is saved and the reply
    names the words as they were given. *)
Theorem X16_add_keywords
  (keywords authors : list string) (c : BotCommand) (a : string) :
  args c = Some a ->
  exists added,
    _add_keyords_callback keywords authors c =
    Done (keywords ++ added,
          [SaveConfig (keywords ++ added) authors;
           PostText (channel c) (Added_following_keywords (split " " a))]) /\
    NoDup added /\
    Forall (fun kw => lower kw = kw /\ ~ In kw keywords /\
                      exists word, In word (split " " a) /\ kw = lower word) added /\
    (forall word, In word (split " " a) -> In (lower word) (keywords ++ added)) /\
    (NoDup keywords -> NoDup (keywords ++ added)).
Proof.
  intros Ha. unfold _add_keyords_callback. rewrite Ha.
  destruct (add_keywords_appends (split " " a) keywords) as (added & Heq & Hnd & Hall).
  exists added. rewrite Heq. repeat split.
  - exact Hnd.
  - eapply Forall_impl; [|exact Hall]. intros kw [Hin Hnot].
    apply in_map_iff in Hin as (word & <- & Hword).
    repeat split; [apply lower_twice | exact Hnot | now exists word].
  - intros word Hword. rewrite <- Heq. now apply add_keywords_has_all.
  - intros Hk. rewrite Forall_forall in Hall.
    apply NoDup_app; [exact Hk | exact Hnd |].
    intros kw Hin Hadded. now apply (Hall kw Hadded).
Qed.


Lemma X16_witness :
  exists added,
    _add_keyords_callback ["gan"%string] [] (mkCommand (Some "add_keywords") (Some "GAN NeRF nerf") None (Some "C1"))
    = Done (["gan"%string] ++ added,
            [SaveConfig (["gan"%string] ++ added) [];
             PostText (Some "C1"%string)
                      (Added_following_keywords (split " " "GAN NeRF nerf"))]) /\
    NoDup added /\
    Forall (fun kw => lower kw = kw /\ ~ In kw ["gan"%string] /\
                      exists word, In word (split " " "GAN NeRF nerf") /\ kw = lower word)
           added /\
    (forall word, In word (split " " "GAN NeRF nerf") ->
                  In (lower word) (["gan"%string] ++ added)) /\
    (NoDup ["gan"%string] -> NoDup (["gan"%string] ++ added)).
Proof.
  apply (X16_add_keywords ["gan"%string] []
           (mkCommand (Some "add_keywords") (Some "GAN NeRF nerf") None (Some "C1"))
           "GAN NeRF nerf").
  reflexivity.
Defined.

Example add_keywords_sample :
  _add_keyords_callback ["gan"%string] []
    (mkCommand (Some "add_keywords") (Some "GAN NeRF nerf") None (Some "C1"))
  = Done (["gan"; "nerf"]%string,
          [SaveConfig ["gan"; "nerf"]%string [];
           PostText (Some "C1"%string)
                    (Added_following_keywords ["GAN"; "NeRF"; "nerf"]%string)]).
Proof. reflexivity. Qed.

(** X17: giving [_add_keyords_callback] the same arguments a second
    time leaves the list of keywords as the first time left it. *)
Theorem X17_add_keywords_twice
  (keywords authors : list string) (c : BotCommand)
  (keywords' : list string) (evs : list bot_event) :
  _add_keyords_callback keywords authors c = Done (keywords', evs) ->
  _add_keyords_callback keywords' authors c = Done (keywords', evs).
Proof.
  unfold _add_keyords_callback. destruct (args c) as [a|]; [|discriminate].
  intros H. apply (f_equal (fun o => match o with
                                     | Done (k, _) => k
                                     | Failed _ => []
                                     end)) in H as Hk.
  cbv beta iota in Hk.
  assert (Hfix : fold_left add_keyword (split " " a) keywords' = keywords').
  { apply add_keywords_known. intros kw Hkw. rewrite <- Hk.
    now apply add_keywords_has_all. }
  rewrite Hfix. rewrite Hk in H. exact H.
Qed.

Lemma X17_witness :
  _add_keyords_callback ["gan"; "nerf"]%string []
    (mkCommand (Some "add_keywords") (Some "GAN NeRF nerf") None (Some "C1"))
  = Done (["gan"; "nerf"]%string,
          [SaveConfig ["gan"; "nerf"]%string [];
           PostText (Some "C1"%string)
                    (Added_following_keywords ["GAN"; "NeRF"; "nerf"]%string)]).
Proof.
  apply (X17_add_keywords_twice ["gan"%string]). reflexivity.
Defined.

(** X18: when the arguments of [add_keywords] have an empty word (no
    argument, a space at either end, two spaces in a row), the empty
    keyword is in the list afterwards, and from then on the test of
    [run_daily_search] keeps every paper. *)
Theorem X18_empty_keyword_keeps_everything
  (keywords authors : list string) (c : BotCommand) (a : string)
  (keywords' : list string) (evs : list bot_event) :
  args c = Some a ->
  In ""%string (split " " a) ->
  _add_keyords_callback keywords authors c = Done (keywords', evs) ->
  In ""%string keywords' /\ forall p, keep_paper keywords' p = true.
Proof.
  intros Ha Hempty. unfold _add_keyords_callback. rewrite Ha.
  intros H. apply (f_equal (fun o => match o with
                                     | Done (k, _) => k
                                     | Failed _ => []
                                     end)) in H.
  cbv beta iota in H. subst keywords'.
  assert (Hin : In ""%string (fold_left add_keyword (split " " a) keywords))
    by apply (add_keywords_has_all _ keywords ""%string Hempty).
  split; [exact Hin|]. intros p. unfold keep_paper.
  apply orb_true_iff. right. apply existsb_exists.
  exists ""%string. split; [exact Hin | apply str_in_empty].
Qed.

Lemma X18_witness :
  In ""%string ["gan"; ""]%string /\
  forall p, keep_paper ["gan"; ""]%string p = true.
Proof.
  apply (X18_empty_keyword_keeps_everything ["gan"%string] []
           (mkCommand (Some "add_keywords") (Some "") None (Some "C1")) ""
           ["gan"; ""]%string
           [SaveConfig ["gan"; ""]%string [];
            PostText (Some "C1"%string) (Added_following_keywords [""%string])]).
  - reflexivity.
  - left. reflexivity.
  - reflexivity.
Defined.

(* --------------------------------------------------------------------- *)
(** ** [bot.py]: the report in batches *)

Lemma firstn_add {A : Type} (a b : nat) : forall l : list A,
  firstn (a + b) l = firstn a l ++ firstn b (skipn a l).
Proof.
  induction a as [|a IH]; intros l; [reflexivity|].
  destruct l as [|x l]; cbn [Nat.add firstn skipn app].
  - now rewrite firstn_nil.
  - now rewrite IH.
Qed.

Lemma slice_window {A : Type} (l : list A) k c :
  slice l k (k + c) = firstn c (skipn k l).
Proof. unfold slice. now replace (k + c - k)%nat with c by lia. Qed.

(** The first [m] windows of width [c], put end to end. *)
Lemma windows_concat {A : Type} (l : list A) c m :
  List.concat (map (fun k => slice l k (k + c)) (map (fun i => i * c)%nat (seq 0 m)))
  = firstn (m * c) l.
Proof.
  induction m as [|m IH]; [reflexivity|].
  rewrite seq_S, !map_app, concat_app, IH. cbn [map List.concat Nat.add].
  rewrite app_nil_r, slice_window.
  replace (S m * c)%nat with (m * c + c)%nat by lia.
  now rewrite firstn_add.
Qed.

Lemma ceil_div_50 n : (n <= (n + 50 - 1) / 50 * 50 < n + 50)%nat.
Proof.
  pose proof (Nat.div_mod_eq (n + 50 - 1) 50) as H.
  pose proof (Nat.mod_upper_bound (n + 50 - 1) 50 ltac:(lia)) as Hr.
  lia.
Qed.

(** The batches of [post_batches]. *)
Lemma post_batches_spec (chan : option string) (blocks : list block) :
  exists batches,
    post_batches chan blocks = map (PostBlocks chan) batches /\
    List.concat batches = blocks /\
    Forall (fun batch => (1 <= List.length batch <= 50)%nat) batches /\
    List.length batches = ((List.length blocks + 49) / 50)%nat.
Proof.
  set (n := List.length blocks).
  set (starts := range_step n 50).
  exists (map (fun k => slice blocks k (k + 50)) starts).
  pose proof (ceil_div_50 n) as Hceil.
  repeat split.
  - unfold post_batches. fold n starts. now rewrite map_map.
  - unfold starts, range_step. rewrite windows_concat.
    apply firstn_all2. fold n. lia.
  - apply Forall_forall. intros batch Hb.
    apply in_map_iff in Hb as (k & <- & Hk).
    unfold starts, range_step in Hk.
    apply in_map_iff in Hk as (i & <- & Hi). apply in_seq in Hi.
    rewrite slice_window, length_firstn, length_skipn. fold n.
    assert (Hlt : (i * 50 < n)%nat).
    { destruct Hi as [_ Hi]. cbn [Nat.add] in Hi.
      assert (S i * 50 <= (n + 50 - 1) / 50 * 50)%nat by (apply Nat.mul_le_mono_r; lia).
      lia. }
    lia.
  - unfold starts, range_step. rewrite !length_map, length_seq.
    now replace (n + 50 - 1)%nat with (n + 49)%nat by lia.
Qed.

(** X19: the blocks are posted in order, all of them and nothing else,
    in [ceil(n / 50)] messages of at least one and at most 50 blocks. *)
Theorem X19_batches_of_50 (chan : option string) (blocks : list block) :
  exists batches,
    post_batches chan blocks = map (PostBlocks chan) batches /\
    List.concat batches = blocks /\
    Forall (fun batch => (1 <= List.length batch <= 50)%nat) batches /\
    List.length batches = ((List.length blocks + 49) / 50)%nat.
Proof. apply post_batches_spec. Qed.

Lemma body_blocks_length n articles : forall k,
  List.length (body_blocks n k articles) = (2 * List.length articles)%nat.
Proof.
  induction articles as [|art rest IH]; intros k; [reflexivity|].
  cbn [body_blocks List.length article_blocks app]. rewrite IH. lia.
Qed.

(** X20: [_run_daily_arxiv_search] posts nothing when the search
    fails; otherwise it posts the header and two blocks for each
    article found, in messages of at most 50 blocks, the first message
    starting with the header. *)
Theorem X20_report_is_posted_whole
  (category : search_input) (today now : Date.t)
  (parse : nat -> string -> FeedResult) (keywords : list string) (c : BotCommand) :
  let search := run_daily_search category today parse keywords in
  let run := _run_daily_arxiv_search category today now parse keywords c in
  snd run = snd search /\
  (forall e, fst search = Failed e -> fst run = Failed e) /\
  (forall found,
     fst search = Done found ->
     exists header rest batches,
       fst run = Done (map (PostBlocks (channel c)) ((header :: rest) :: batches)) /\
       header =
         Section_mrkdwn ("Found *" ++ str_of_int (Z.of_nat (List.length found))
                         ++ " papers* on Arxiv, " ++ Date.strftime_ymd now) /\
       List.length (List.concat ((header :: rest) :: batches))
       = (1 + 2 * List.length found)%nat /\
       Forall (fun batch => (1 <= List.length batch <= 50)%nat)
              ((header :: rest) :: batches)).
Proof.
  cbv zeta. unfold _run_daily_arxiv_search.
  destruct (run_daily_search _ _ _ _) as [[found|e] evs]; cbn [fst snd].
  - split; [reflexivity|]. split; [intros e H; discriminate H|].
    intros found' [= <-].
    destruct (post_batches_spec (channel c)
                (report_blocks (Date.strftime_ymd now) found))
      as (batches & Hpost & Hcat & Hsize & _).
    unfold report_blocks in Hcat.
    destruct batches as [|[|header rest] batches].
    + discriminate Hcat.
    + inversion Hsize as [|? ? Hb _]; subst. cbn in Hb. lia.
    + exists header, rest, batches. rewrite Hpost.
      split; [reflexivity|]. cbn [List.concat app] in Hcat.
      injection Hcat as -> Hrest. split; [reflexivity|].
      split; [|exact Hsize].
      cbn [List.concat app List.length]. rewrite Hrest, body_blocks_length. lia.
  - split; [reflexivity|]. split; [now intros e0 [= <-]|].
    intros found H. discriminate H.
Qed.

Lemma X20_witness :
  exists header rest batches,
    fst (_run_daily_arxiv_search (AStr "cs.CV")
           monday_2026_11_02 monday_2026_11_02 feed_sample []
           (mkCommand (Some "run_daily_arxiv_search") (Some "") None (Some "C1")))
    = Done (map (PostBlocks (Some "C1"%string)) ((header :: rest) :: batches)) /\
    header = Section_mrkdwn "Found *3 papers* on Arxiv, 2026-11-02" /\
    List.length (List.concat ((header :: rest) :: batches)) = 7%nat /\
    Forall (fun batch => (1 <= List.length batch <= 50)%nat)
           ((header :: rest) :: batches).
Proof.
  apply (proj2 (proj2 (X20_report_is_posted_whole
                         (AStr "cs.CV")
                         monday_2026_11_02 monday_2026_11_02 feed_sample []
                         (mkCommand (Some "run_daily_arxiv_search") (Some "") None
                                    (Some "C1"))))
           [paper_oct30; paper_oct30; paper_oct30]).
  reflexivity.
Defined.

(* --------------------------------------------------------------------- *)
(** ** [bot.py]: reading a command *)

Section Mention.

Import Rx.

Lemma step_Bol r s st : match_here (Bol :: r) true s st = match_here r true s st.
Proof. reflexivity. Qed.

Lemma step_Open r bos s st :
  match_here (Open :: r) bos s st = match_here r bos s (open_group st).
Proof. reflexivity. Qed.

Lemma step_Close r bos s st :
  match_here (Close :: r) bos s st = match_here r bos s (close_group st).
Proof. reflexivity. Qed.

Lemma step_One a r bos s st :
  match_here (One a :: r) bos s st =
  match s with
  | String c t => if a c then match_here r false t (push c st) else None
  | EmptyString => None
  end.
Proof. reflexivity. Qed.

Lemma step_Opt a r bos s st :
  match_here (Opt a :: r) bos s st =
  match
    match s with
    | String c t => if a c then match_here r false t (push c st) else None
    | EmptyString => None
    end
  with
  | Some g => Some g
  | None => match_here r bos s st
  end.
Proof. reflexivity. Qed.

Lemma step_Star a r bos s st :
  match_here (Star a :: r) bos s st =
  match
    match s with
    | String c t => if a c then match_here (Star a :: r) false t (push c st) else None
    | EmptyString => None
    end
  with
  | Some g => Some g
  | None => match_here r bos s st
  end.
Proof. destruct s; reflexivity. Qed.

(** [a*] takes the whole leading run when the rest of the pattern
    matches after it. *)
Lemma star_greedy a r s : forall bos st g,
  (forall b, match_here r b (drop_run a s) (push_all (leading_run a s) st) = Some g) ->
  match_here (Star a :: r) bos s st = Some g.
Proof.
  induction s as [|c t IH]; intros bos st g H; rewrite step_Star.
  - apply H.
  - cbn [drop_run leading_run] in H. destruct (a c).
    + cbn [push_all] in H. now rewrite (IH false (push c st) g H).
    + apply H.
Qed.

(** What [a*] has taken when the pattern matched. *)
Lemma star_taken a r s : forall bos st g,
  match_here (Star a :: r) bos s st = Some g ->
  exists run rest b,
    s = (run ++ rest)%string /\
    forallb a (list_ascii_of_string run) = true /\
    match_here r b rest (push_all run st) = Some g.
Proof.
  induction s as [|c t IH]; intros bos st g H; rewrite step_Star in H.
  - now exists ""%string, ""%string, bos.
  - destruct (a c) eqn:Hc.
    + destruct (match_here (Star a :: r) false t (push c st)) as [g'|] eqn:Hm.
      * injection H as <-.
        destruct (IH _ _ _ Hm) as (run & rest & b & -> & Hrun & Hr).
        exists (String c run), rest, b. cbn [list_ascii_of_string forallb append push_all].
        now rewrite Hc, Hrun.
      * now exists ""%string, (String c t), bos.
    + now exists ""%string, (String c t), bos.
Qed.

Lemma push_all_open txt : forall cl g,
  push_all txt (mkCaps cl (Some g)) = mkCaps cl (Some (g ++ txt)%string).
Proof.
  induction txt as [|c t IH]; intros cl g; cbn [push_all].
  - f_equal. f_equal. clear. induction g; cbn; congruence.
  - unfold push. cbn [opened closed]. rewrite IH. f_equal. f_equal.
    clear. induction g; cbn; congruence.
Qed.

Lemma leading_run_stop a run c rest :
  forallb a (list_ascii_of_string run) = true -> a c = false ->
  leading_run a (run ++ String c rest) = run /\
  drop_run a (run ++ String c rest) = String c rest.
Proof.
  intros Hrun Hc. induction run as [|x run IH]; cbn [append leading_run drop_run].
  - now rewrite Hc.
  - cbn [list_ascii_of_string forallb] in Hrun.
    apply andb_prop in Hrun as [Hx Hrun]. rewrite Hx.
    destruct (IH Hrun) as [-> ->]. now split.
Qed.

(** The last group: the rest of the line. *)
Lemma match_rest_of_line bos s cl :
  match_here [Open; Star any; Close] bos s (mkCaps cl None) =
  Some (mkCaps (cl ++ [leading_run any s]) None).
Proof.
  rewrite step_Open. apply star_greedy. intros b.
  rewrite step_Close. unfold open_group. cbn [closed].
  rewrite push_all_open. reflexivity.
Qed.

Lemma match_after_command bos s cl :
  match_here [Opt (chr " "); Open; Star any; Close] bos s (mkCaps cl None) =
  Some (mkCaps (cl ++ [leading_run any (drop_space s)]) None).
Proof.
  rewrite step_Opt. destruct s as [|c t].
  - apply match_rest_of_line.
  - unfold chr. cbn [drop_space]. destruct (Ascii.eqb c " ").
    + unfold push. cbn [opened]. now rewrite match_rest_of_line.
    + apply match_rest_of_line.
Qed.

Lemma match_command bos s cl :
  match_here [Open; Star word; Close; Opt (chr " "); Open; Star any; Close]
             bos s (mkCaps cl None) =
  Some (mkCaps (cl ++ [leading_run word s]
                   ++ [leading_run any (drop_space (drop_run word s))]) None).
Proof.
  rewrite step_Open. apply star_greedy. intros b.
  rewrite step_Close. unfold open_group. cbn [closed].
  rewrite push_all_open. unfold close_group. cbn [opened closed append].
  rewrite match_after_command. now rewrite <- app_assoc.
Qed.

(** The groups of a text that begins with a mention. *)
Lemma search_mention id rest :
  forallb word (list_ascii_of_string id) = true ->
  search self_mention ("<@" ++ id ++ "> " ++ rest) =
  Some [("<@" ++ id ++ ">")%string;
        leading_run word rest;
        leading_run any (drop_space (drop_run word rest))].
Proof.
  intros Hid. unfold search.
  assert (Hm : match_here self_mention true ("<@" ++ id ++ "> " ++ rest) (mkCaps [] None)
               = Some (mkCaps [("<@" ++ id ++ ">")%string;
                               leading_run word rest;
                               leading_run any (drop_space (drop_run word rest))] None)).
  { unfold self_mention. rewrite step_Bol, step_Open.
    change ("<@" ++ id ++ "> " ++ rest)%string
      with (String "<" (String "@" (id ++ String ">" (String " " rest)))).
    rewrite step_One. change (chr "<" "<"%char) with true. cbv iota.
    rewrite step_One. change (chr "@" "@"%char) with true. cbv iota.
    destruct (leading_run_stop word id ">" (String " " rest) Hid eq_refl) as [Hrun Hdrop].
    apply star_greedy. intros b. rewrite Hrun, Hdrop.
    unfold open_group, push. cbn [opened closed append].
    rewrite push_all_open.
    rewrite step_One. change (chr ">" ">"%char) with true. cbv iota.
    rewrite step_Close. unfold push, close_group. cbn [opened closed app].
    rewrite step_One. change (chr " " " "%char) with true. cbv iota.
    unfold push. cbn [opened].
    rewrite match_command. reflexivity. }
  destruct ("<@" ++ id ++ "> " ++ rest)%string; cbn [search_from]; now rewrite Hm.
Qed.

Lemma mention_not_later r s : search_from (Bol :: r) false s = None.
Proof. induction s as [|c t IH]; [reflexivity | exact IH]. Qed.

(** A text on which the pattern matches begins with a mention. *)
Lemma search_mention_inv text groups :
  search self_mention text = Some groups -> begins_with_mention text.
Proof.
  unfold search. intros H.
  assert (Hm : exists g, match_here self_mention true text (mkCaps [] None) = Some g).
  { destruct text as [|c t]; cbn [search_from] in H;
      destruct (match_here self_mention true _ _) as [g|] eqn:Hg;
      try (now exists g); [discriminate H|].
    unfold self_mention in H. now rewrite mention_not_later in H. }
  clear H. destruct Hm as [g Hm]. unfold self_mention in Hm.
  rewrite step_Bol, step_Open, step_One in Hm.
  destruct text as [|c1 t1]; [discriminate Hm|].
  destruct (chr "<" c1) eqn:H1; [|discriminate Hm].
  rewrite step_One in Hm. destruct t1 as [|c2 t2]; [discriminate Hm|].
  destruct (chr "@" c2) eqn:H2; [|discriminate Hm].
  apply star_taken in Hm as (id & rest & b & -> & Hid & Hm).
  rewrite step_One in Hm. destruct rest as [|c3 t3]; [discriminate Hm|].
  destruct (chr ">" c3) eqn:H3; [|discriminate Hm].
  rewrite step_Close, step_One in Hm. destruct t3 as [|c4 t4]; [discriminate Hm|].
  destruct (chr " " c4) eqn:H4; [|discriminate Hm].
  unfold chr in *. apply Ascii.eqb_eq in H1, H2, H3, H4. subst.
  exists id, t4. split; [|exact Hid]. reflexivity.
Qed.

End Mention.

Lemma leading_run_all a s :
  forallb a (list_ascii_of_string s) = true ->
  leading_run a s = s /\ drop_run a s = ""%string.
Proof.
  induction s as [|c t IH]; cbn [list_ascii_of_string forallb leading_run drop_run];
    [now split|].
  intros [Hc Ht]%andb_prop. rewrite Hc. destruct (IH Ht) as [-> ->]. now split.
Qed.

Lemma leading_run_line s :
  str_in LF s = false -> leading_run Rx.any s = s.
Proof.
  unfold LF. rewrite str_in_char.
  induction s as [|c t IH]; cbn [has_char leading_run]; [reflexivity|].
  intros [Hc Ht]%orb_false_elim. unfold Rx.any at 1. rewrite Hc. cbn [negb].
  now rewrite IH.
Qed.

Lemma FromText_mention (data : message) (id rest : string) :
  msg_text data = Some ("<@" ++ id ++ "> " ++ rest)%string ->
  forallb Rx.word (list_ascii_of_string id) = true ->
  FromText self_mention (Some data) =
  Done (mkCommand (Some (leading_run Rx.word rest))
                  (Some (leading_run Rx.any (drop_space (drop_run Rx.word rest))))
                  (msg_user data) (msg_channel data)).
Proof.
  intros Htext Hid. unfold FromText. rewrite Htext.
  rewrite (search_mention id rest Hid). reflexivity.
Qed.

(** X21: a message that begins with a mention, [<@], word characters,
    [>] and a space, whatever the identifier mentioned, is read as a
    command: the command is the run of word characters that follows,
    and the arguments are the rest of the line after one space, if
    there is one. *)
Theorem X21_FromText_reads_any_mention (data : message) (id rest : string) :
  msg_text data = Some ("<@" ++ id ++ "> " ++ rest)%string ->
  forallb Rx.word (list_ascii_of_string id) = true ->
  FromText self_mention (Some data) =
  Done (mkCommand (Some (leading_run Rx.word rest))
                  (Some (leading_run Rx.any (drop_space (drop_run Rx.word rest))))
                  (msg_user data) (msg_channel data)).
Proof. apply FromText_mention. Qed.

Lemma X21_witness :
  FromText self_mention
    (Some (mkMessage (Some "<@U999> add_keywords gan,nerf  x") (Some "C1") (Some "U1")))
  = Done (mkCommand (Some "add_keywords") (Some "gan,nerf  x") (Some "U1") (Some "C1")).
Proof.
  apply (X21_FromText_reads_any_mention
           (mkMessage (Some "<@U999> add_keywords gan,nerf  x") (Some "C1") (Some "U1"))
           "U999" "add_keywords gan,nerf  x"); reflexivity.
Defined.

(** X22: a command written as mention, space, name, space, arguments
    is read back as that name and those arguments, when the name is
    made of word characters and the arguments hold no line feed. *)
Theorem X22_command_round_trip (data : message) (id name a : string) :
  msg_text data = Some ("<@" ++ id ++ "> " ++ name ++ " " ++ a)%string ->
  forallb Rx.word (list_ascii_of_string id) = true ->
  forallb Rx.word (list_ascii_of_string name) = true ->
  str_in LF a = false ->
  FromText self_mention (Some data) =
  Done (mkCommand (Some name) (Some a) (msg_user data) (msg_channel data)).
Proof.
  intros Htext Hid Hname Ha.
  rewrite (FromText_mention data id (name ++ " " ++ a) Htext Hid).
  destruct (leading_run_stop Rx.word name " " a Hname eq_refl) as [Hrun Hdrop].
  change (name ++ " " ++ a)%string with (name ++ String " " a)%string.
  rewrite Hrun, Hdrop. cbn [drop_space Ascii.eqb Bool.eqb].
  now rewrite (leading_run_line a Ha).
Qed.

Lemma X22_witness :
  FromText self_mention
    (Some (mkMessage (Some "<@U999> add_keywords gan nerf") (Some "C1") None))
  = Done (mkCommand (Some "add_keywords") (Some "gan nerf") None (Some "C1")).
Proof.
  apply (X22_command_round_trip
           (mkMessage (Some "<@U999> add_keywords gan nerf") (Some "C1") None)
           "U999" "add_keywords" "gan nerf"); reflexivity.
Defined.

Lemma FromText_done (data : message) :
  exists c,
    FromText self_mention (Some data) = Done c /\
    (cmd c <> None ->
     exists text, msg_text data = Some text /\ begins_with_mention text).
Proof.
  unfold FromText.
  destruct (msg_text data) as [[|c0 t0]|] eqn:Htext;
    try (eexists; split; [reflexivity|]; cbn [cmd]; congruence).
  destruct (Rx.search self_mention (String c0 t0)) as [groups|] eqn:Hs;
    [|eexists; split; [reflexivity|]; cbn [cmd]; congruence].
  pose proof (search_mention_inv _ _ Hs) as Hm.
  destruct Hm as (id & rest & Heq & Hid).
  rewrite Heq, (search_mention id rest Hid) in Hs. injection Hs as <-.
  eexists. split; [reflexivity|]. intros _.
  exists (String c0 t0). split; [reflexivity|]. now exists id, rest.
Qed.

(** X23: with the pattern of the bot, [FromText] fails only on a
    payload without data; it finds a command exactly when the text
    begins with a mention, and a command found always comes with
    arguments: they are never [None], so the test on two groups is
    never true. *)
Theorem X23_FromText_command_iff_mention (data : message) :
  FromText self_mention None = Failed (AttributeError "get") /\
  exists c,
    FromText self_mention (Some data) = Done c /\
    (cmd c <> None <->
     exists text, msg_text data = Some text /\ begins_with_mention text) /\
    (cmd c = None -> c = mkCommand None None None None) /\
    (cmd c <> None -> args c <> None).
Proof.
  split; [reflexivity|]. unfold FromText.
  destruct (msg_text data) as [[|c0 t0]|] eqn:Htext.
  - eexists. split; [reflexivity|]. cbn [cmd args]. repeat split; try congruence.
    intros (text & [= <-] & id & rest & H & _). discriminate H.
  - destruct (Rx.search self_mention (String c0 t0)) as [groups|] eqn:Hs.
    + pose proof (search_mention_inv _ _ Hs) as Hm.
      destruct Hm as (id & rest & Heq & Hid).
      rewrite Heq, (search_mention id rest Hid) in Hs. injection Hs as <-.
      eexists. split; [reflexivity|]. cbn [cmd args].
      repeat split; try congruence.
      intros _. exists (String c0 t0). split; [reflexivity|]. now exists id, rest.
    + eexists. split; [reflexivity|]. cbn [cmd args]. repeat split; try congruence.
      intros (text & [= <-] & id & rest & Heq & Hid).
      rewrite Heq, (search_mention id rest Hid) in Hs. discriminate Hs.
  - eexists. split; [reflexivity|]. cbn [cmd args]. repeat split; try congruence.
    intros (text & H & _). discriminate H.
Qed.

Lemma X23_witness :
  exists c,
    FromText self_mention (Some (mkMessage (Some "hello <@U999> help") None None)) = Done c /\
    (cmd c <> None <->
     exists text, Some "hello <@U999> help"%string = Some text /\ begins_with_mention text) /\
    (cmd c = None -> c = mkCommand None None None None) /\
    (cmd c <> None -> args c <> None).
Proof.
  apply (proj2 (X23_FromText_command_iff_mention
                  (mkMessage (Some "hello <@U999> help") None None))).
Defined.



(** X25: [message_callback] runs a callback only for a message that
    begins with a mention followed by a nonempty command word: the
    callback of that name when it is a known command, and the one for
    unrecognized commands otherwise. *)
Theorem X25_dispatch (data : message) (cb : callback) (c : BotCommand) :
  message_callback self_mention (Some data) = Done (Some (cb, c)) ->
  exists id rest,
    msg_text data = Some ("<@" ++ id ++ "> " ++ rest)%string /\
    forallb Rx.word (list_ascii_of_string id) = true /\
    leading_run Rx.word rest <> ""%string /\
    cmd c = Some (leading_run Rx.word rest) /\
    cb = match known_cmd (leading_run Rx.word rest) with
         | Some known => known
         | None => Boilerplate_callback
         end.
Proof.
  unfold message_callback. intros H.
  destruct (FromText_done data) as (c0 & Hc0 & Hiff).
  rewrite Hc0 in H.
  destruct (cmd c0) as [[|ch name]|] eqn:Hcmd; try discriminate H.
  destruct Hiff as (text & Htext & id & rest & -> & Hid); [congruence|].
  rewrite (FromText_mention data id rest Htext Hid) in Hc0.
  injection Hc0 as <-. cbn [cmd] in Hcmd. injection Hcmd as Hname.
  exists id, rest. rewrite Hname.
  repeat split; [exact Htext | exact Hid | discriminate | |].
  - destruct (known_cmd (String ch name)); injection H as _ <-; cbn [cmd]; congruence.
  - destruct (known_cmd (String ch name)); now injection H as <- _.
Qed.

Lemma X25_witness :
  exists id rest,
    Some "<@U999> hello there"%string = Some ("<@" ++ id ++ "> " ++ rest)%string /\
    forallb Rx.word (list_ascii_of_string id) = true /\
    leading_run Rx.word rest <> ""%string /\
    cmd (mkCommand (Some "hello") (Some "there") None (Some "C1"))
    = Some (leading_run Rx.word rest) /\
    Boilerplate_callback = match known_cmd (leading_run Rx.word rest) with
                           | Some known => known
                           | None => Boilerplate_callback
                           end.
Proof.
  apply (X25_dispatch (mkMessage (Some "<@U999> hello there") (Some "C1") None)
           Boilerplate_callback
           (mkCommand (Some "hello") (Some "there") None (Some "C1"))).
  reflexivity.
Defined.

(* --------------------------------------------------------------------- *)
(** ** [bot.py]: the greeting *)

Lemma greet_cases host channels :
  (greet host channels = [] /\
   Forall (fun c => chan_name c <> host) channels) \/
  exists before c after,
    channels = before ++ c :: after /\
    Forall (fun c' => chan_name c' <> host) before /\
    chan_name c = host /\
    greet host channels = [PostText (Some (chan_id c)) (Plain "PaperBot is now online.")].
Proof.
  induction channels as [|c rest IH]; cbn [greet].
  - left. split; [reflexivity | constructor].
  - destruct (String.eqb_spec (chan_name c) host) as [Heq|Hne].
    + right. exists [], c, rest. repeat split; [constructor | exact Heq].
    + destruct IH as [[Hnone Hall]|(before & c' & after & -> & Hb & Hc & Hg)].
      * left. split; [exact Hnone | now constructor].
      * right. exists (c :: before), c', after.
        repeat split; [now constructor | exact Hc | exact Hg].
Qed.

(** X4: [open_callback] raises before posting anything when the bot
    could not be identified or when the name of the channel is empty;
    otherwise it posts the greeting once at most, to the first channel
    whose name is the name of the host channel without its leading [#],
    and nothing when there is no such channel. *)
Theorem X4_greeting_goes_to_first_match
  (channel : string) (auth_error : option string) (channels : list chat_channel) :
  (forall error, auth_error = Some error ->
     open_callback channel auth_error channels
     = Failed (BotRuntimeError ("Could not retrive bot ID: " ++ error))) /\
  (auth_error = None -> channel = ""%string ->
   open_callback channel auth_error channels
   = Failed (IndexError "string index out of range")) /\
  (forall c name,
     auth_error = None -> channel = String c name ->
     let host := if Ascii.eqb c "#" then name else channel in
     (open_callback channel auth_error channels = Done [] /\
      Forall (fun c' => chan_name c' <> host) channels) \/
     exists before found after,
       channels = before ++ found :: after /\
       Forall (fun c' => chan_name c' <> host) before /\
       chan_name found = host /\
       open_callback channel auth_error channels
       = Done [PostText (Some (chan_id found)) (Plain "PaperBot is now online.")]).
Proof.
  split; [|split].
  - intros error ->. reflexivity.
  - intros -> ->. reflexivity.
  - intros c name -> -> host. unfold open_callback. cbn [host_chan]. fold host.
    destruct (greet_cases host channels)
      as [[Hnone Hall]|(before & found & after & Hch & Hb & Hf & Hg)].
    + left. now rewrite Hnone.
    + right. exists before, found, after. now rewrite Hg.
Qed.

Lemma X4_witness :
  (open_callback "#paperbot" None
     [mkChannel "general" "C0"; mkChannel "paperbot" "C7"; mkChannel "paperbot" "C9"]
   = Done [] /\
   Forall (fun c' => chan_name c' <> "paperbot"%string)
     [mkChannel "general" "C0"; mkChannel "paperbot" "C7"; mkChannel "paperbot" "C9"]) \/
  exists before found after,
    [mkChannel "general" "C0"; mkChannel "paperbot" "C7"; mkChannel "paperbot" "C9"]
    = before ++ found :: after /\
    Forall (fun c' => chan_name c' <> "paperbot"%string) before /\
    chan_name found = "paperbot"%string /\
    open_callback "#paperbot" None
      [mkChannel "general" "C0"; mkChannel "paperbot" "C7"; mkChannel "paperbot" "C9"]
    = Done [PostText (Some (chan_id found)) (Plain "PaperBot is now online.")].
Proof.
  apply (proj2 (proj2 (X4_greeting_goes_to_first_match "#paperbot" None
           [mkChannel "general" "C0"; mkChannel "paperbot" "C7"; mkChannel "paperbot" "C9"]))
           "#"%char "paperbot"%string); reflexivity.
Defined.

Example open_callback_sample :
  open_callback "#paperbot" None
    [mkChannel "general" "C0"; mkChannel "paperbot" "C7"; mkChannel "paperbot" "C9"]
  = Done [PostText (Some "C7"%string) (Plain "PaperBot is now online.")].
Proof. reflexivity. Qed.
